(** * ExpenseLM MCP server: request building, transport and response validation

    A shallow embedding of [expenselm_mcp_server.py].  The file follows the
    source top to bottom: the enums and pydantic models, the validation of
    decoded JSON against them, the two helpers that read the API key, and the
    six tools.  Effects (reading [os.environ], the outbound GET, raising) are
    threaded through a small monad that records every request handed to the
    transport. *)

From Stdlib Require Import ZArith Floats.
From stdpp Require Import base option list strings gmap.

Set Warnings "-register-all".
Set Default Proof Using "Type".
Local Open Scope string_scope.
Local Open Scope Z_scope.

(** ** Decoded JSON

    What [r.json()] returns: [None], [bool], [int], [float], [str], [list]
    and [dict] objects.  A [dict] is kept as its items in insertion order; its
    keys are pairwise distinct in Python, and [dict_get] returns the first
    binding of a key. *)

Inductive json : Type :=
| PyNone
| PyBool (b : bool)
| PyInt (z : Z)
| PyFloat (f : float)
| PyStr (s : string)
| PyList (l : list json)
| PyDict (d : list (string * json)).

Fixpoint dict_get (k : string) (d : list (string * json)) : option json :=
  match d with
  | [] => None
  | (k', v) :: d' => if String.eqb k k' then Some v else dict_get k d'
  end.

(** ** Validation results

    pydantic reports a [ValidationError] as a list of line errors, each with
    an error type and the location (field names and list indices) of the
    offending input.  Errors of sibling fields and of sibling list elements
    are accumulated. *)

Inductive loc_item : Type :=
| LKey (k : string)
| LIdx (i : nat).

Inductive error_type : Type :=
| missing
| string_type
| float_type
| float_parsing
| enum
| list_type
| model_type
| json_type
| json_invalid.

Record line_error : Type := LineError {
  err_type : error_type;
  err_loc : list loc_item
}.

Inductive result (A : Type) : Type :=
| Ok (a : A)
| Err (errs : list line_error).
Arguments Ok {A} a.
Arguments Err {A} errs.

Definition fail_with {A} (t : error_type) : result A :=
  Err [LineError t []].

Definition at_loc {A} (i : loc_item) (r : result A) : result A :=
  match r with
  | Ok a => Ok a
  | Err errs => Err (map (fun e => LineError (err_type e) (i :: err_loc e)) errs)
  end.

Definition result_map {A B} (f : A -> B) (r : result A) : result B :=
  match r with
  | Ok a => Ok (f a)
  | Err errs => Err errs
  end.

(** Applying a validated constructor to the next validated field; the errors
    of both sides are kept, in field order. *)
Definition result_ap {A B} (rf : result (A -> B)) (ra : result A) : result B :=
  match rf, ra with
  | Ok f, Ok a => Ok (f a)
  | Ok _, Err errs => Err errs
  | Err errs, Ok _ => Err errs
  | Err errs1, Err errs2 => Err (errs1 ++ errs2)
  end.

Notation "f <$$> r" := (result_map f r) (at level 61, left associativity).
Notation "rf <**> ra" := (result_ap rf ra) (at level 61, left associativity).

(** ** The enums and models of the source *)

Inductive ExpenseImageType : Type := Receipt | Invoice | Others.

Inductive ExpenseType : Type := Standard | Subscription.

Record ExpenseImage : Type := {
  image_type : ExpenseImageType;
  image_file_name : string
}.

Record ExpenseItem : Type := {
  name : string;
  quantity : float;
  unit_price : float;
  subtotal : float
}.

Record Expense : Type := {
  shop_name : string;
  shop_address : string;
  date : string;
  expense_category : string;
  currency : string;
  total_amount : float;
  items : list ExpenseItem;
  expense_type : ExpenseType;
  remark : string
}.

Record ExpenseImageData : Type := {
  image : option ExpenseImage;
  expense : option Expense
}.

(** [ExpenseRecord] inherits [image] and [expense] from [ExpenseImageData]
    (validated first, in the parent's order) and adds the required [id],
    written [record_id] here. *)
Record ExpenseRecord : Type := {
  record_data : ExpenseImageData;
  record_id : string
}.

(** The three statistics rows share the field names [currency] and
    [total_amount] with [Expense]; their projections carry a prefix. *)
Record MonthCurAmtStatItem : Type := {
  month : string;
  month_currency : string;
  month_total_amount : float
}.

Record CategoryCurAmtStatItem : Type := {
  category : string;
  category_currency : string;
  category_total_amount : float
}.

Record SubscriptionCurAmtStatItem : Type := {
  subscription : string;
  subscription_currency : string;
  subscription_total_amount : float
}.

(** [ExpenseSearchRequest] is declared by the source and never instantiated.
    Of its constraints only the one on [limit] ([gt=0], [le=100]) concerns an
    argument that the tools forward as an integer. *)
Definition ExpenseSearchRequest_limit_ok (limit : Z) : bool :=
  (0 <? limit) && (limit <=? 100).

(** ** Validation of decoded JSON against the models *)

Definition validate_str (x : json) : result string :=
  match x with
  | PyStr s => Ok s
  | _ => fail_with string_type
  end.

Definition validate_ExpenseImageType (x : json) : result ExpenseImageType :=
  match x with
  | PyStr s =>
      if String.eqb s "Receipt" then Ok Receipt
      else if String.eqb s "Invoice" then Ok Invoice
      else if String.eqb s "Others" then Ok Others
      else fail_with enum
  | _ => fail_with enum
  end.

Definition validate_ExpenseType (x : json) : result ExpenseType :=
  match x with
  | PyStr s =>
      if String.eqb s "Standard" then Ok Standard
      else if String.eqb s "Subscription" then Ok Subscription
      else fail_with enum
  | _ => fail_with enum
  end.

(** [Optional[T]]: [None] is accepted as it is, anything else goes to [T]. *)
Definition validate_optional {A} (v : json -> result A) (x : json) : result (option A) :=
  match x with
  | PyNone => Ok None
  | _ => Some <$$> v x
  end.

Fixpoint validate_elements {A} (v : json -> result A) (i : nat) (l : list json)
  : result (list A) :=
  match l with
  | [] => Ok []
  | x :: l' => cons <$$> at_loc (LIdx i) (v x) <**> validate_elements v (S i) l'
  end.

(** [list[T]]: every element is validated; one failing element fails the list. *)
Definition validate_list {A} (v : json -> result A) (x : json) : result (list A) :=
  match x with
  | PyList l => validate_elements v 0 l
  | _ => fail_with list_type
  end.

(** A field declared with [Field(...)] is required. *)
Definition field {A} (k : string) (v : json -> result A) (d : list (string * json))
  : result A :=
  match dict_get k d with
  | Some x => at_loc (LKey k) (v x)
  | None => Err [LineError missing [LKey k]]
  end.

(** A field declared with a default takes it when the key is absent; the
    default itself is not validated. *)
Definition field_default {A} (k : string) (v : json -> result A) (default : A)
    (d : list (string * json)) : result A :=
  match dict_get k d with
  | Some x => at_loc (LKey k) (v x)
  | None => Ok default
  end.

Definition validate_ExpenseImage (x : json) : result ExpenseImage :=
  match x with
  | PyDict d =>
      Build_ExpenseImage
        <$$> field "image_type" validate_ExpenseImageType d
        <**> field "image_file_name" validate_str d
  | _ => fail_with model_type
  end.

(** ** HTTP requests, responses and the effects of a tool call *)

Inductive param_value : Type :=
| PInt (z : Z)
| PStr (s : string).

(** The arguments of one [client.get] call on a client built with
    [httpx.AsyncClient(timeout=...)]; [params = None] when the call passes no
    [params] argument. *)
Record request : Type := {
  url : string;
  headers : gmap string string;
  params : option (gmap string param_value);
  timeout : float
}.

(** A response as the tools see it: they call [r.json()] and nothing else.
    [decoded] is the result of that call, [None] when the body is not JSON;
    [status_code] is carried by the response and never read. *)
Record response : Type := {
  status_code : Z;
  decoded : option json
}.

Inductive reply : Type :=
| Reply (r : response)
| NoReply (cause : string).

Inductive exn : Type :=
| ValueError (msg : string)
| ValidationError (errs : list line_error)
| JSONDecodeError
| TransportError (cause : string)
| HTTPStatusError (r : response).

Inductive outcome (A : Type) : Type :=
| Return (a : A)
| Raise (e : exn).
Arguments Return {A} a.
Arguments Raise {A} e.

(** Everything outside the process: the environment variables and the remote
    API behind the transport. *)
Record world : Type := {
  environ : gmap string string;
  remote : request -> reply
}.

(** A computation reads the world and yields its outcome together with the
    requests it handed to the transport, oldest first. *)
Definition io (A : Type) : Type := world -> outcome A * list request.

Definition io_ret {A} (a : A) : io A := fun _ => (Return a, []).

Definition io_raise {A} (e : exn) : io A := fun _ => (Raise e, []).

Definition io_bind {A B} (c : io A) (k : A -> io B) : io B :=
  fun w =>
    match c w with
    | (Return a, sent) => let '(o, sent') := k a w in (o, (sent ++ sent')%list)
    | (Raise e, sent) => (Raise e, sent)
    end.

Notation "x <~ c ;; k" := (io_bind c (fun x => k))
  (at level 62, c at next level, right associativity).

Definition io_map {A B} (f : A -> B) (c : io A) : io B :=
  x <~ c ;; io_ret (f x).

Definition os_getenv (k : string) : io (option string) :=
  fun w => (Return (environ w !! k), []).

Definition client_get (u : string) (h : gmap string string)
    (p : option (gmap string param_value)) (t : float) : io response :=
  fun w =>
    let req := {| url := u; headers := h; params := p; timeout := t |} in
    match remote w req with
    | Reply r => (Return r, [req])
    | NoReply cause => (Raise (TransportError cause), [req])
    end.

(** [r.json()] *)
Definition response_json (r : response) : io json :=
  match decoded r with
  | Some x => io_ret x
  | None => io_raise JSONDecodeError
  end.

(** A failed validation raises [ValidationError]. *)
Definition raise_invalid {A} (r : result A) : io A :=
  match r with
  | Ok a => io_ret a
  | Err errs => io_raise (ValidationError errs)
  end.

Definition _EXPENSELM_API_ENDPOINT : string := "https://api.expenselm.ai".
Definition _EXPENSELM_TIMEOUT : float := 60%float.

Definition _get_api_key : io string :=
  key <~ os_getenv "EXPENSELM_API_KEY" ;;
  match key with
  | None => io_raise (ValueError "EXPENSELM_API_KEY is not set")
  | Some k => io_ret k
  end.

Definition _get_headers : io (gmap string string) :=
  key <~ _get_api_key ;;
  io_ret {[ "EXPENSELM_API_KEY" := key ]}.

(** [if arg: search_params[k] = arg] for an [Optional[str]] argument: [None]
    and the empty string are both false. *)
Definition set_if_true (k : string) (arg : option string)
    (search_params : gmap string param_value) : gmap string param_value :=
  match arg with
  | Some s => if String.eqb s "" then search_params else <[ k := PStr s ]> search_params
  | None => search_params
  end.

(** The [search_params] dictionary that [get_latest_expenses] and
    [get_latest_subscription_expenses] build, statement for statement the
    same in both. *)
Definition list_search_params (skip limit : Z) (from_date to_date text_input : option string)
  : gmap string param_value :=
  let search_params := <[ "limit" := PInt limit ]> {[ "skip" := PInt skip ]} in
  let search_params := set_if_true "from_date" from_date search_params in
  let search_params := set_if_true "to_date" to_date search_params in
  let search_params := set_if_true "text_input" text_input search_params in
  search_params.

(** The [search_params] dictionary of the three summary tools. *)
Definition period_search_params (from_date to_date : string) : gmap string param_value :=
  <[ "to_date" := PStr to_date ]> {[ "from_date" := PStr from_date ]}.

Section Server.

(** Two library functions the validation relies on and this repository does
    not contain: pydantic's lax conversion to [float] of an input that is not
    a [float] already, and the JSON parser behind [model_validate_json]. *)
Variable coerce_float : json -> option float.
Variable from_json : string -> option json.

Definition validate_float (x : json) : result float :=
  match x with
  | PyFloat f => Ok f
  | PyStr _ =>
      match coerce_float x with
      | Some f => Ok f
      | None => fail_with float_parsing
      end
  | PyInt _ | PyBool _ =>
      match coerce_float x with
      | Some f => Ok f
      | None => fail_with float_type
      end
  | _ => fail_with float_type
  end.

Definition validate_ExpenseItem (x : json) : result ExpenseItem :=
  match x with
  | PyDict d =>
      Build_ExpenseItem
        <$$> field_default "name" validate_str "" d
        <**> field_default "quantity" validate_float 0%float d
        <**> field_default "unit_price" validate_float 0%float d
        <**> field_default "subtotal" validate_float 0%float d
  | _ => fail_with model_type
  end.

Definition validate_Expense (x : json) : result Expense :=
  match x with
  | PyDict d =>
      Build_Expense
        <$$> field_default "shop_name" validate_str "" d
        <**> field_default "shop_address" validate_str "" d
        <**> field_default "date" validate_str "" d
        <**> field_default "expense_category" validate_str "Misc" d
        <**> field_default "currency" validate_str "" d
        <**> field_default "total_amount" validate_float 0%float d
        <**> field_default "items" (validate_list validate_ExpenseItem) [] d
        <**> field_default "expense_type" validate_ExpenseType Standard d
        <**> field_default "remark" validate_str "" d
  | _ => fail_with model_type
  end.

Definition ExpenseImageData_fields (d : list (string * json)) : result ExpenseImageData :=
  Build_ExpenseImageData
    <$$> field_default "image" (validate_optional validate_ExpenseImage) None d
    <**> field_default "expense" (validate_optional validate_Expense) None d.

Definition validate_ExpenseImageData (x : json) : result ExpenseImageData :=
  match x with
  | PyDict d => ExpenseImageData_fields d
  | _ => fail_with model_type
  end.

Definition validate_ExpenseRecord (x : json) : result ExpenseRecord :=
  match x with
  | PyDict d =>
      Build_ExpenseRecord
        <$$> ExpenseImageData_fields d
        <**> field "id" validate_str d
  | _ => fail_with model_type
  end.

Definition validate_MonthCurAmtStatItem (x : json) : result MonthCurAmtStatItem :=
  match x with
  | PyDict d =>
      Build_MonthCurAmtStatItem
        <$$> field "month" validate_str d
        <**> field "currency" validate_str d
        <**> field "total_amount" validate_float d
  | _ => fail_with model_type
  end.

Definition validate_CategoryCurAmtStatItem (x : json) : result CategoryCurAmtStatItem :=
  match x with
  | PyDict d =>
      Build_CategoryCurAmtStatItem
        <$$> field "category" validate_str d
        <**> field "currency" validate_str d
        <**> field "total_amount" validate_float d
  | _ => fail_with model_type
  end.

Definition validate_SubscriptionCurAmtStatItem (x : json)
  : result SubscriptionCurAmtStatItem :=
  match x with
  | PyDict d =>
      Build_SubscriptionCurAmtStatItem
        <$$> field "subscription" validate_str d
        <**> field "currency" validate_str d
        <**> field "total_amount" validate_float d
  | _ => fail_with model_type
  end.

(** [ExpenseImageData.model_validate_json(data)]: [data] has to be JSON text;
    any other object is refused with a [json_type] error before the model is
    looked at. *)
Definition ExpenseImageData_model_validate_json (data : json) : result ExpenseImageData :=
  match data with
  | PyStr text =>
      match from_json text with
      | Some x => validate_ExpenseImageData x
      | None => fail_with json_invalid
      end
  | _ => fail_with json_type
  end.

(** ** The six tools *)

Definition get_latest_expenses (skip limit : Z)
    (from_date to_date text_input : option string) : io (list ExpenseRecord) :=
  let api_endpoint := _EXPENSELM_API_ENDPOINT +:+ "/expenses/" in
  let search_params := list_search_params skip limit from_date to_date text_input in
  h <~ _get_headers ;;
  r <~ client_get api_endpoint h (Some search_params) _EXPENSELM_TIMEOUT ;;
  body <~ response_json r ;;
  raise_invalid (validate_list validate_ExpenseRecord body).

Definition get_expense_by_id (id : string) : io ExpenseImageData :=
  let api_endpoint := _EXPENSELM_API_ENDPOINT +:+ "/expenses/" +:+ id in
  h <~ _get_headers ;;
  r <~ client_get api_endpoint h None _EXPENSELM_TIMEOUT ;;
  body <~ response_json r ;;
  raise_invalid (ExpenseImageData_model_validate_json body).

Definition get_latest_subscription_expenses (skip limit : Z)
    (from_date to_date text_input : option string) : io (list ExpenseRecord) :=
  let api_endpoint := _EXPENSELM_API_ENDPOINT +:+ "/subscriptions/" in
  let search_params := list_search_params skip limit from_date to_date text_input in
  h <~ _get_headers ;;
  r <~ client_get api_endpoint h (Some search_params) _EXPENSELM_TIMEOUT ;;
  body <~ response_json r ;;
  raise_invalid (validate_list validate_ExpenseRecord body).

Definition get_expense_summary_by_month_by_currency (from_date to_date : string)
  : io (list MonthCurAmtStatItem) :=
  let api_endpoint := _EXPENSELM_API_ENDPOINT +:+ "/stats/summary-by-month-by-currency" in
  let search_params := period_search_params from_date to_date in
  h <~ _get_headers ;;
  r <~ client_get api_endpoint h (Some search_params) _EXPENSELM_TIMEOUT ;;
  body <~ response_json r ;;
  raise_invalid (validate_list validate_MonthCurAmtStatItem body).

Definition get_expense_summary_by_category_by_currency (from_date to_date : string)
  : io (list CategoryCurAmtStatItem) :=
  let api_endpoint := _EXPENSELM_API_ENDPOINT +:+ "/stats/summary-by-category-by-currency" in
  let search_params := period_search_params from_date to_date in
  h <~ _get_headers ;;
  r <~ client_get api_endpoint h (Some search_params) _EXPENSELM_TIMEOUT ;;
  body <~ response_json r ;;
  raise_invalid (validate_list validate_CategoryCurAmtStatItem body).

Definition get_expense_summary_by_subscription_by_currency (from_date to_date : string)
  : io (list SubscriptionCurAmtStatItem) :=
  let api_endpoint :=
    _EXPENSELM_API_ENDPOINT +:+ "/stats/summary-by-subscription-by-currency" in
  let search_params := period_search_params from_date to_date in
  h <~ _get_headers ;;
  r <~ client_get api_endpoint h (Some search_params) _EXPENSELM_TIMEOUT ;;
  body <~ response_json r ;;
  raise_invalid (validate_list validate_SubscriptionCurAmtStatItem body).

(** The tools registered with [@mcp.tool], as one call each with its
    arguments, and what a call hands back. *)
Inductive tool_call : Type :=
| GetLatestExpenses (skip limit : Z) (from_date to_date text_input : option string)
| GetExpenseById (id : string)
| GetLatestSubscriptionExpenses (skip limit : Z)
    (from_date to_date text_input : option string)
| GetExpenseSummaryByMonthByCurrency (from_date to_date : string)
| GetExpenseSummaryByCategoryByCurrency (from_date to_date : string)
| GetExpenseSummaryBySubscriptionByCurrency (from_date to_date : string).

Inductive tool_value : Type :=
| ExpenseRecords (l : list ExpenseRecord)
| ExpenseData (x : ExpenseImageData)
| MonthStats (l : list MonthCurAmtStatItem)
| CategoryStats (l : list CategoryCurAmtStatItem)
| SubscriptionStats (l : list SubscriptionCurAmtStatItem).

Definition call_tool (c : tool_call) : io tool_value :=
  match c with
  | GetLatestExpenses skip limit from_date to_date text_input =>
      io_map ExpenseRecords (get_latest_expenses skip limit from_date to_date text_input)
  | GetExpenseById id =>
      io_map ExpenseData (get_expense_by_id id)
  | GetLatestSubscriptionExpenses skip limit from_date to_date text_input =>
      io_map ExpenseRecords
        (get_latest_subscription_expenses skip limit from_date to_date text_input)
  | GetExpenseSummaryByMonthByCurrency from_date to_date =>
      io_map MonthStats (get_expense_summary_by_month_by_currency from_date to_date)
  | GetExpenseSummaryByCategoryByCurrency from_date to_date =>
      io_map CategoryStats (get_expense_summary_by_category_by_currency from_date to_date)
  | GetExpenseSummaryBySubscriptionByCurrency from_date to_date =>
      io_map SubscriptionStats
        (get_expense_summary_by_subscription_by_currency from_date to_date)
  end.

End Server.

(** ** Payloads and worlds the properties are stated on *)

Definition ExpenseType_value (t : ExpenseType) : string :=
  match t with
  | Standard => "Standard"
  | Subscription => "Subscription"
  end.

(** A JSON object that matches the [ExpenseItem] schema exactly. *)
Definition ExpenseItem_json (i : ExpenseItem) : json :=
  PyDict [("name", PyStr (name i)); ("quantity", PyFloat (quantity i));
          ("unit_price", PyFloat (unit_price i)); ("subtotal", PyFloat (subtotal i))].

(** The members of a JSON object that matches the [Expense] schema exactly. *)
Definition Expense_members (e : Expense) : list (string * json) :=
  [("shop_name", PyStr (shop_name e)); ("shop_address", PyStr (shop_address e));
   ("date", PyStr (date e)); ("expense_category", PyStr (expense_category e));
   ("currency", PyStr (currency e)); ("total_amount", PyFloat (total_amount e));
   ("items", PyList (map ExpenseItem_json (items e)));
   ("expense_type", PyStr (ExpenseType_value (expense_type e)));
   ("remark", PyStr (remark e))].

Definition Expense_json (e : Expense) : json := PyDict (Expense_members e).

(** The same object with one member left out. *)
Definition omit (k : string) (d : list (string * json)) : list (string * json) :=
  List.filter (fun kv => negb (String.eqb k (fst kv))) d.

(** What Python's truth test lets through of an [Optional[str]] argument. *)
Definition supplied (arg : option string) : option string :=
  match arg with
  | Some s => if String.eqb s "" then None else Some s
  | None => None
  end.

(** The parameter names a list tool can send. *)
Definition list_param_names : list string :=
  ["skip"; "limit"; "from_date"; "to_date"; "text_input"].

(** [has_error e r]: the validation failed and [e] is one of its line errors. *)
Definition has_error {A} (e : line_error) (r : result A) : Prop :=
  match r with
  | Ok _ => False
  | Err errs => e ∈ errs
  end.

(** [reports t r]: the validation failed with a line error of type [t]. *)
Definition reports {A} (t : error_type) (r : result A) : Prop :=
  exists e, has_error e r /\ err_type e = t.

Definition under (i : loc_item) (e : line_error) : line_error :=
  LineError (err_type e) (i :: err_loc e).

Definition is_success (status : Z) : bool := (200 <=? status) && (status <? 300).

(** The world [w] with every response of the remote relabelled with [status]. *)
Definition with_status (status : Z) (w : world) : world :=
  {| environ := environ w;
     remote := fun req =>
       match remote w req with
       | Reply r => Reply {| status_code := status; decoded := decoded r |}
       | NoReply cause => NoReply cause
       end |}.

(** A world whose API key is [key] and whose remote answers every request
    with [r]. *)
Definition answering (key : string) (r : response) : world :=
  {| environ := {[ "EXPENSELM_API_KEY" := key ]};
     remote := fun _ => Reply r |}.

(** A world without API key. *)
Definition unconfigured (r : response) : world :=
  {| environ := ∅; remote := fun _ => Reply r |}.

(** The request a list tool sends. *)
Definition list_request (path key : string) (search_params : gmap string param_value)
  : request :=
  {| url := _EXPENSELM_API_ENDPOINT +:+ path;
     headers := {[ "EXPENSELM_API_KEY" := key ]};
     params := Some search_params;
     timeout := _EXPENSELM_TIMEOUT |}.

(** Responses and payloads of the closed examples. *)
Definition not_found : response :=
  {| status_code := 404; decoded := Some (PyDict [("detail", PyStr "Not Found")]) |}.

Definition no_expenses : response :=
  {| status_code := 200; decoded := Some (PyList []) |}.

Definition empty_record : json :=
  PyDict [("image", PyNone); ("expense", PyNone)].

Definition recurring_record : list (string * json) :=
  [("id", PyStr "r2"); ("expense", PyDict [("expense_type", PyStr "Recurring")])].

Definition unnamed_receipt : json :=
  PyDict [("image_type", PyStr "Receipt"); ("image_file_name", PyStr "")].

(** Instances of the two library functions for closed examples: a validator
    that converts nothing to [float], a parser that accepts no text. *)
Definition no_coercion : json -> option float := fun _ => None.
Definition no_text : string -> option json := fun _ => None.

(** ** Further payloads, requests and worlds *)

Definition ExpenseImageType_value (t : ExpenseImageType) : string :=
  match t with
  | Receipt => "Receipt"
  | Invoice => "Invoice"
  | Others => "Others"
  end.

(** A JSON object that matches the [ExpenseImage] schema exactly. *)
Definition ExpenseImage_json (i : ExpenseImage) : json :=
  PyDict [("image_type", PyStr (ExpenseImageType_value (image_type i)));
          ("image_file_name", PyStr (image_file_name i))].

(** An optional member, written [null] when it is [None]. *)
Definition optional_json {A} (f : A -> json) (o : option A) : json :=
  match o with
  | Some a => f a
  | None => PyNone
  end.

(** A JSON object that matches the [ExpenseRecord] schema exactly. *)
Definition ExpenseRecord_json (r : ExpenseRecord) : json :=
  PyDict [("image", optional_json ExpenseImage_json (image (record_data r)));
          ("expense", optional_json Expense_json (expense (record_data r)));
          ("id", PyStr (record_id r))].

Definition MonthCurAmtStatItem_json (r : MonthCurAmtStatItem) : json :=
  PyDict [("month", PyStr (month r)); ("currency", PyStr (month_currency r));
          ("total_amount", PyFloat (month_total_amount r))].

Definition CategoryCurAmtStatItem_json (r : CategoryCurAmtStatItem) : json :=
  PyDict [("category", PyStr (category r)); ("currency", PyStr (category_currency r));
          ("total_amount", PyFloat (category_total_amount r))].

Definition SubscriptionCurAmtStatItem_json (r : SubscriptionCurAmtStatItem) : json :=
  PyDict [("subscription", PyStr (subscription r));
          ("currency", PyStr (subscription_currency r));
          ("total_amount", PyFloat (subscription_total_amount r))].

(** The keys the models read. *)
Definition Expense_keys : list string :=
  ["shop_name"; "shop_address"; "date"; "expense_category"; "currency";
   "total_amount"; "items"; "expense_type"; "remark"].

Definition ExpenseRecord_keys : list string := ["image"; "expense"; "id"].

(** The request each tool call makes once it has the key. *)
Definition tool_request (c : tool_call) (key : string) : request :=
  match c with
  | GetLatestExpenses skip limit from_date to_date text_input =>
      list_request "/expenses/" key
        (list_search_params skip limit from_date to_date text_input)
  | GetExpenseById id =>
      {| url := _EXPENSELM_API_ENDPOINT +:+ "/expenses/" +:+ id;
         headers := {[ "EXPENSELM_API_KEY" := key ]};
         params := None;
         timeout := _EXPENSELM_TIMEOUT |}
  | GetLatestSubscriptionExpenses skip limit from_date to_date text_input =>
      list_request "/subscriptions/" key
        (list_search_params skip limit from_date to_date text_input)
  | GetExpenseSummaryByMonthByCurrency from_date to_date =>
      list_request "/stats/summary-by-month-by-currency" key
        (period_search_params from_date to_date)
  | GetExpenseSummaryByCategoryByCurrency from_date to_date =>
      list_request "/stats/summary-by-category-by-currency" key
        (period_search_params from_date to_date)
  | GetExpenseSummaryBySubscriptionByCurrency from_date to_date =>
      list_request "/stats/summary-by-subscription-by-currency" key
        (period_search_params from_date to_date)
  end.

Definition returns_a_list (c : tool_call) : bool :=
  match c with
  | GetExpenseById _ => false
  | _ => true
  end.

Definition outcome_map {A B} (f : A -> B) (o : outcome A) : outcome B :=
  match o with
  | Return a => Return (f a)
  | Raise e => Raise e
  end.

(** What a tool makes of the answer to its request, [v] being the validation
    it applies to the decoded body. *)
Definition settle {A} (v : json -> result A) (answer : reply) : outcome A :=
  match answer with
  | NoReply cause => Raise (TransportError cause)
  | Reply r =>
      match decoded r with
      | None => Raise JSONDecodeError
      | Some body =>
          match v body with
          | Ok a => Return a
          | Err errs => Raise (ValidationError errs)
          end
      end
  end.

(** A world whose API key is [key] and whose remote cannot be reached. *)
Definition unreachable (key cause : string) : world :=
  {| environ := {[ "EXPENSELM_API_KEY" := key ]};
     remote := fun _ => NoReply cause |}.

(** [p] holds the two dates as given and nothing else. *)
Definition period_query (from_date to_date : string) (p : gmap string param_value) : Prop :=
  p !! "from_date" = Some (PStr from_date)
  /\ p !! "to_date" = Some (PStr to_date)
  /\ (forall k, k ≠ "from_date" -> k ≠ "to_date" -> p !! k = None).

(** [p] holds [skip], [limit] and the optional arguments that pass Python's
    truth test, and nothing else. *)
Definition list_query (skip limit : Z) (from_date to_date text_input : option string)
    (p : gmap string param_value) : Prop :=
  p !! "skip" = Some (PInt skip)
  /\ p !! "limit" = Some (PInt limit)
  /\ p !! "from_date" = PStr <$> supplied from_date
  /\ p !! "to_date" = PStr <$> supplied to_date
  /\ p !! "text_input" = PStr <$> supplied text_input
  /\ (forall k, k ∉ list_param_names -> p !! k = None).

(** A parser for closed examples that knows the text of the empty object. *)
Definition empty_object_only : string -> option json :=
  fun text => if String.eqb text "{}" then Some (PyDict []) else None.

(** Rows and records of the closed examples. *)
Definition january : MonthCurAmtStatItem :=
  {| month := "2024-01"; month_currency := "USD"; month_total_amount := 120.5%float |}.

Definition february : MonthCurAmtStatItem :=
  {| month := "2024-02"; month_currency := "EUR"; month_total_amount := 7%float |}.

Definition groceries : CategoryCurAmtStatItem :=
  {| category := "Groceries"; category_currency := "USD";
     category_total_amount := 42.25%float |}.

Definition streaming : SubscriptionCurAmtStatItem :=
  {| subscription := "Streaming"; subscription_currency := "USD";
     subscription_total_amount := 9.5%float |}.

Definition coffee : ExpenseRecord :=
  {| record_data :=
       {| image := Some {| image_type := Receipt; image_file_name := "r.jpg" |};
          expense :=
            Some {| shop_name := "Cafe"; shop_address := ""; date := "2024-01-05";
                    expense_category := "Food"; currency := "USD";
                    total_amount := 3.5%float;
                    items := [{| name := "Espresso"; quantity := 1%float;
                                 unit_price := 3.5%float; subtotal := 3.5%float |}];
                    expense_type := Standard; remark := "" |} |};
     record_id := "r1" |}.

Definition bare : ExpenseRecord :=
  {| record_data := {| image := None; expense := None |}; record_id := "r2" |}.

(** ** Properties *)

Section Properties.

Variable coerce_float : json -> option float.
Variable from_json : string -> option json.

(** *** The API key *)

Lemma _get_headers_unset (w : world) :
  environ w !! "EXPENSELM_API_KEY" = None ->
  _get_headers w = (Raise (ValueError "EXPENSELM_API_KEY is not set"), []).
Proof.
  intros H. unfold _get_headers, _get_api_key, io_bind, os_getenv.
  rewrite H. reflexivity.
Qed.

Lemma _get_headers_set (w : world) (key : string) :
  environ w !! "EXPENSELM_API_KEY" = Some key ->
  _get_headers w = (Return {[ "EXPENSELM_API_KEY" := key ]}, []).
Proof.
  intros H. unfold _get_headers, _get_api_key, io_bind, os_getenv.
  rewrite H. reflexivity.
Qed.

(** C4: with [EXPENSELM_API_KEY] unset, every tool raises the
    configuration error of [_get_api_key] and hands no request to the
    transport. *)
Theorem unset_key_raises_before_any_request (c : tool_call) (w : world) :
  environ w !! "EXPENSELM_API_KEY" = None ->
  call_tool coerce_float from_json c w
  = (Raise (ValueError "EXPENSELM_API_KEY is not set"), []).
Proof.
  intros H.
  destruct c; unfold call_tool, io_map, io_bind at 1;
    [ unfold get_latest_expenses
    | unfold get_expense_by_id
    | unfold get_latest_subscription_expenses
    | unfold get_expense_summary_by_month_by_currency
    | unfold get_expense_summary_by_category_by_currency
    | unfold get_expense_summary_by_subscription_by_currency ];
    unfold io_bind at 1; rewrite (_get_headers_unset w H); reflexivity.
Qed.

(** *** The query of the list tools *)

Lemma set_if_true_lookup_ne (k k' : string) (arg : option string)
    (m : gmap string param_value) :
  k ≠ k' -> set_if_true k arg m !! k' = m !! k'.
Proof.
  intros Hne. unfold set_if_true.
  destruct arg as [s|]; [|reflexivity].
  destruct (String.eqb s ""); [reflexivity|].
  by rewrite lookup_insert_ne.
Qed.

Lemma set_if_true_lookup_eq (k : string) (arg : option string)
    (m : gmap string param_value) :
  m !! k = None -> set_if_true k arg m !! k = PStr <$> supplied arg.
Proof.
  intros Hm. unfold set_if_true, supplied.
  destruct arg as [s|]; [|by rewrite Hm].
  destruct (String.eqb s ""); [by rewrite Hm|].
  by rewrite lookup_insert_eq.
Qed.

Lemma supplied_nonempty (arg : option string) : supplied arg ≠ Some "".
Proof.
  unfold supplied. destruct arg as [s|]; [|discriminate].
  destruct (String.eqb_spec s ""); [discriminate|congruence].
Qed.

Lemma list_search_params_lookup (skip limit : Z) (from_date to_date text_input : option string) :
  let p := list_search_params skip limit from_date to_date text_input in
  p !! "skip" = Some (PInt skip)
  /\ p !! "limit" = Some (PInt limit)
  /\ p !! "from_date" = PStr <$> supplied from_date
  /\ p !! "to_date" = PStr <$> supplied to_date
  /\ p !! "text_input" = PStr <$> supplied text_input
  /\ (forall k, k ∉ list_param_names -> p !! k = None).
Proof.
  unfold list_search_params; cbv zeta.
  repeat split.
  - by rewrite !set_if_true_lookup_ne.
  - by rewrite !set_if_true_lookup_ne.
  - rewrite !set_if_true_lookup_ne by done. by apply set_if_true_lookup_eq.
  - rewrite set_if_true_lookup_ne by done. apply set_if_true_lookup_eq.
    by rewrite set_if_true_lookup_ne.
  - apply set_if_true_lookup_eq. by rewrite !set_if_true_lookup_ne.
  - intros k Hk. unfold list_param_names in Hk.
    rewrite !not_elem_of_cons in Hk. destruct Hk as (H1 & H2 & H3 & H4 & H5 & _).
    rewrite !set_if_true_lookup_ne by done.
    rewrite lookup_insert_ne by done. by rewrite lookup_singleton_ne.
Qed.

(** Once the headers are there, a tool hands exactly one request to the
    transport, whatever becomes of the answer. *)
Lemma one_request {A} (w : world) (key u : string)
    (p : option (gmap string param_value)) (v : json -> result A) :
  environ w !! "EXPENSELM_API_KEY" = Some key ->
  snd ((h <~ _get_headers ;;
        r <~ client_get u h p _EXPENSELM_TIMEOUT ;;
        body <~ response_json r ;;
        raise_invalid (v body)) w)
  = [{| url := u; headers := {[ "EXPENSELM_API_KEY" := key ]}; params := p;
        timeout := _EXPENSELM_TIMEOUT |}].
Proof.
  intros H. unfold io_bind at 1. rewrite (_get_headers_set w key H).
  unfold io_bind, client_get, response_json.
  destruct (remote w _) as [r|cause]; [|reflexivity].
  destruct (decoded r) as [x|]; [|reflexivity].
  cbn. destruct (v x); reflexivity.
Qed.

Lemma get_latest_expenses_sent (skip limit : Z) (from_date to_date text_input : option string)
    (w : world) (key : string) :
  environ w !! "EXPENSELM_API_KEY" = Some key ->
  snd (get_latest_expenses coerce_float skip limit from_date to_date text_input w)
  = [list_request "/expenses/" key
       (list_search_params skip limit from_date to_date text_input)].
Proof. intros H. unfold get_latest_expenses. by rewrite (one_request w key). Qed.

Lemma get_latest_subscription_expenses_sent (skip limit : Z)
    (from_date to_date text_input : option string) (w : world) (key : string) :
  environ w !! "EXPENSELM_API_KEY" = Some key ->
  snd (get_latest_subscription_expenses coerce_float skip limit from_date to_date
         text_input w)
  = [list_request "/subscriptions/" key
       (list_search_params skip limit from_date to_date text_input)].
Proof. intros H. unfold get_latest_subscription_expenses. by rewrite (one_request w key). Qed.

(** C5, amended: for a limit in [1,100] and a skip of at least 0, the
    query that [get_latest_expenses] sends holds [skip] and [limit], and each
    of [from_date], [to_date], [text_input] exactly when the argument is a
    non-empty string ([None] and the empty string are both left out); it holds
    no other parameter and no parameter whose value is the empty string. *)
Theorem query_of_get_latest_expenses (skip limit : Z)
    (from_date to_date text_input : option string) (w : world) (key : string) :
  1 <= limit <= 100 ->
  0 <= skip ->
  environ w !! "EXPENSELM_API_KEY" = Some key ->
  exists p : gmap string param_value,
    snd (get_latest_expenses coerce_float skip limit from_date to_date text_input w)
    = [list_request "/expenses/" key p]
    /\ p !! "skip" = Some (PInt skip)
    /\ p !! "limit" = Some (PInt limit)
    /\ p !! "from_date" = PStr <$> supplied from_date
    /\ p !! "to_date" = PStr <$> supplied to_date
    /\ p !! "text_input" = PStr <$> supplied text_input
    /\ (forall k, k ∉ list_param_names -> p !! k = None)
    /\ (forall k, p !! k ≠ Some (PStr "")).
Proof.
  intros _ _ H.
  exists (list_search_params skip limit from_date to_date text_input).
  destruct (list_search_params_lookup skip limit from_date to_date text_input)
    as (Hs & Hl & Hf & Ht & Hx & Hrest).
  split; [by apply get_latest_expenses_sent|].
  do 6 (split; [assumption|]).
  intros k Hk.
  destruct (decide (k ∈ list_param_names)) as [Hin|Hout].
  - unfold list_param_names in Hin. rewrite !elem_of_cons in Hin.
    destruct Hin as [->|[->|[->|[->|[->|Hin]]]]].
    + congruence.
    + congruence.
    + rewrite Hf in Hk. destruct (supplied from_date) eqn:E; [|discriminate].
      apply (supplied_nonempty from_date). cbn in Hk. congruence.
    + rewrite Ht in Hk. destruct (supplied to_date) eqn:E; [|discriminate].
      apply (supplied_nonempty to_date). cbn in Hk. congruence.
    + rewrite Hx in Hk. destruct (supplied text_input) eqn:E; [|discriminate].
      apply (supplied_nonempty text_input). cbn in Hk. congruence.
    + by apply elem_of_nil in Hin.
  - rewrite (Hrest k Hout) in Hk. discriminate.
Qed.

(** C10: whatever integer [skip] is, negative ones included, both list
    tools send their request with that very value under [skip]; nothing
    checks it on the way. *)
Theorem skip_is_forwarded_unchecked (skip limit : Z)
    (from_date to_date text_input : option string) (w : world) (key : string) :
  environ w !! "EXPENSELM_API_KEY" = Some key ->
  (exists p : gmap string param_value,
     snd (get_latest_expenses coerce_float skip limit from_date to_date text_input w)
     = [list_request "/expenses/" key p]
     /\ p !! "skip" = Some (PInt skip))
  /\ (exists p : gmap string param_value,
        snd (get_latest_subscription_expenses coerce_float skip limit from_date to_date
               text_input w)
        = [list_request "/subscriptions/" key p]
        /\ p !! "skip" = Some (PInt skip)).
Proof.
  intros H.
  destruct (list_search_params_lookup skip limit from_date to_date text_input)
    as (Hs & _).
  split; eexists; (split; [|exact Hs]).
  - by apply get_latest_expenses_sent.
  - by apply get_latest_subscription_expenses_sent.
Qed.

(** *** Validation: how line errors travel *)

Lemma has_error_map {A B} (f : A -> B) (e : line_error) (r : result A) :
  has_error e (f <$$> r) <-> has_error e r.
Proof. by destruct r. Qed.

Lemma has_error_ap {A B} (e : line_error) (rf : result (A -> B)) (ra : result A) :
  has_error e (rf <**> ra) <-> has_error e rf \/ has_error e ra.
Proof.
  destruct rf, ra; cbn; rewrite ?elem_of_app; clear; tauto.
Qed.

Lemma has_error_at_loc {A} (i : loc_item) (e : line_error) (r : result A) :
  has_error e (at_loc i r) <-> exists e', e = under i e' /\ has_error e' r.
Proof.
  destruct r as [a|errs]; cbn.
  - split; [intros []|]. by intros (e' & _ & []).
  - rewrite list_elem_of_fmap. reflexivity.
Qed.

Lemma has_error_field_default {A} (k : string) (v : json -> result A) (default : A)
    (d : list (string * json)) (e : line_error) :
  has_error e (field_default k v default d)
  <-> exists x e', dict_get k d = Some x /\ e = under (LKey k) e' /\ has_error e' (v x).
Proof.
  unfold field_default. destruct (dict_get k d) as [x|].
  - rewrite has_error_at_loc. split.
    + intros (e' & He & H). by exists x, e'.
    + intros (x' & e' & [= <-] & He & H). by exists e'.
  - cbn. split; [intros []|]. by intros (x & e' & H & _).
Qed.

Lemma has_error_validate_elements {A} (v : json -> result A) (e : line_error)
    (l : list json) (i : nat) :
  has_error e (validate_elements v i l)
  <-> exists (n : nat) x e', l !! n = Some x /\ e = under (LIdx (i + n)) e' /\ has_error e' (v x).
Proof.
  revert i. induction l as [|y l IH]; intros i; cbn [validate_elements].
  - cbn. split; [intros []|]. by intros (n & x & e' & H & _).
  - rewrite has_error_ap, has_error_map, has_error_at_loc, IH. split.
    + intros [(e' & He & H)|(n & x & e' & Hn & He & H)].
      * exists 0%nat, y, e'. by rewrite Nat.add_0_r.
      * exists (S n), x, e'. by rewrite Nat.add_succ_r.
    + intros (n & x & e' & Hn & He & H). destruct n as [|n].
      * left. exists e'. rewrite Nat.add_0_r in He. cbn in Hn. by simplify_eq.
      * right. exists n, x, e'. by rewrite Nat.add_succ_r in He.
Qed.

Lemma reports_validate_str (t : error_type) (x : json) :
  reports t (validate_str x) -> t = string_type.
Proof.
  intros (e & H & <-). destruct x; cbn in H; try done;
    by apply list_elem_of_singleton in H as ->.
Qed.

Lemma reports_validate_float (t : error_type) (x : json) :
  reports t (validate_float coerce_float x) -> t = float_type \/ t = float_parsing.
Proof.
  intros (e & H & <-). unfold validate_float in H.
  destruct x; try destruct (coerce_float _); cbn in H; try done;
    apply list_elem_of_singleton in H as ->; auto.
Qed.

Lemma reports_validate_ExpenseType (t : error_type) (x : json) :
  reports t (validate_ExpenseType x) -> t = enum.
Proof.
  intros (e & H & <-). unfold validate_ExpenseType in H.
  destruct x; try (by apply list_elem_of_singleton in H as ->).
  repeat (destruct (String.eqb _ _); [done|]).
  by apply list_elem_of_singleton in H as ->.
Qed.

Lemma reports_field_default {A} (t : error_type) (k : string) (v : json -> result A)
    (default : A) (d : list (string * json)) :
  reports t (field_default k v default d) -> exists x, reports t (v x).
Proof.
  intros (e & H & <-). apply has_error_field_default in H as (x & e' & _ & -> & H).
  exists x, e'. by split.
Qed.

Lemma reports_validate_ExpenseItem (x : json) :
  ~ reports missing (validate_ExpenseItem coerce_float x).
Proof.
  intros (e & H & Ht). destruct x; cbn in H;
    try (by apply list_elem_of_singleton in H as ->).
  rewrite !has_error_ap, has_error_map in H.
  assert (exists y, reports missing (validate_str y)
                    \/ reports missing (validate_float coerce_float y)) as [y Hy].
  { destruct H as [[[H|H]|H]|H];
      (destruct (reports_field_default missing _ _ _ _ (ex_intro _ e (conj H Ht))) as [y Hy]);
      exists y; auto. }
  destruct Hy as [Hy|Hy].
  - by apply reports_validate_str in Hy.
  - by apply reports_validate_float in Hy as [|].
Qed.

Lemma reports_validate_items (x : json) :
  ~ reports missing (validate_list (validate_ExpenseItem coerce_float) x).
Proof.
  intros (e & H & Ht). destruct x; cbn in H;
    try (by apply list_elem_of_singleton in H as ->).
  apply has_error_validate_elements in H as (n & x & e' & _ & -> & H).
  apply (reports_validate_ExpenseItem x). by exists e'.
Qed.

(** *** The Expense schema *)

Lemma validate_ExpenseItem_json (i : ExpenseItem) :
  validate_ExpenseItem coerce_float (ExpenseItem_json i) = Ok i.
Proof. by destruct i. Qed.

Lemma validate_elements_ExpenseItem_json (l : list ExpenseItem) (n : nat) :
  validate_elements (validate_ExpenseItem coerce_float) n (map ExpenseItem_json l) = Ok l.
Proof.
  revert n. induction l as [|i l IH]; intros n; [reflexivity|].
  cbn [map validate_elements]. by rewrite validate_ExpenseItem_json, IH.
Qed.

Lemma validate_ExpenseType_value (t : ExpenseType) :
  validate_ExpenseType (PyStr (ExpenseType_value t)) = Ok t.
Proof. by destruct t. Qed.

(** C6: a JSON object that matches the [Expense] schema exactly validates
    to the record with the same field values; ["Subscription"] becomes the
    tag [Subscription]; with [items] left out the record has no items, with
    [expense_category] left out its category is ["Misc"]. *)
Theorem Expense_round_trip (e : Expense) :
  validate_Expense coerce_float (Expense_json e) = Ok e
  /\ validate_ExpenseType (PyStr "Subscription") = Ok Subscription
  /\ validate_Expense coerce_float (PyDict (omit "items" (Expense_members e)))
     = Ok {| shop_name := shop_name e; shop_address := shop_address e; date := date e;
             expense_category := expense_category e; currency := currency e;
             total_amount := total_amount e; items := [];
             expense_type := expense_type e; remark := remark e |}
  /\ validate_Expense coerce_float (PyDict (omit "expense_category" (Expense_members e)))
     = Ok {| shop_name := shop_name e; shop_address := shop_address e; date := date e;
             expense_category := "Misc"; currency := currency e;
             total_amount := total_amount e; items := items e;
             expense_type := expense_type e; remark := remark e |}.
Proof.
  destruct e as [sn sa dt ec cu ta its et rm].
  repeat split; unfold Expense_json, Expense_members, validate_Expense, field_default;
    cbn -[validate_elements validate_ExpenseType validate_ExpenseItem];
    rewrite ?validate_elements_ExpenseItem_json, validate_ExpenseType_value;
    reflexivity.
Qed.

(** C9: every field of [Expense] has a default: the empty object
    validates to the record of the defaults, and no object is ever refused
    for a missing [Expense] field. *)
Theorem Expense_of_empty_object :
  validate_Expense coerce_float (PyDict [])
  = Ok {| shop_name := ""; shop_address := ""; date := ""; expense_category := "Misc";
          currency := ""; total_amount := 0%float; items := [];
          expense_type := Standard; remark := "" |}
  /\ (forall d : list (string * json),
        ~ reports missing (validate_Expense coerce_float (PyDict d))).
Proof.
  split; [reflexivity|].
  intros d (e & H & Ht). unfold validate_Expense in H.
  rewrite !has_error_ap, has_error_map in H.
  assert (forall {A} k (v : json -> result A) dflt,
             has_error e (field_default k v dflt d) -> exists x, reports missing (v x))
    as Hfield.
  { intros A k v dflt Hk. apply (reports_field_default missing k v dflt d). by exists e. }
  destruct H as [[[[[[[[H|H]|H]|H]|H]|H]|H]|H]|H]; apply Hfield in H as [x Hx].
  1-5,9: by apply reports_validate_str in Hx.
  - by apply reports_validate_float in Hx as [|].
  - by apply reports_validate_items in Hx.
  - by apply reports_validate_ExpenseType in Hx.
Qed.

(** *** ExpenseImage *)

(** C8, amended: a validated [ExpenseImage] carries as [image_file_name]
    the string the payload gives under that key, unchanged; the key is
    required, and no length is asked of the string. *)
Theorem image_file_name_as_given (x : json) (img : ExpenseImage) :
  validate_ExpenseImage x = Ok img ->
  exists d, x = PyDict d
            /\ dict_get "image_file_name" d = Some (PyStr (image_file_name img)).
Proof.
  intros H. destruct x as [| | | | | |d]; try discriminate.
  exists d. split; [reflexivity|].
  unfold validate_ExpenseImage, field in H.
  destruct (dict_get "image_file_name" d) as [y|].
  - destruct y; try (destruct (dict_get "image_type" d) as [t|];
      [destruct (validate_ExpenseImageType t)|]; discriminate).
    destruct (dict_get "image_type" d) as [t|]; [|discriminate].
    destruct (validate_ExpenseImageType t); [|discriminate].
    cbn in H. by simplify_eq.
  - destruct (dict_get "image_type" d) as [t|];
      [destruct (validate_ExpenseImageType t)|]; discriminate.
Qed.

(** *** Batches *)

Lemma validate_ExpenseType_invalid (s : string) :
  s ≠ "Standard" -> s ≠ "Subscription" ->
  validate_ExpenseType (PyStr s) = fail_with enum.
Proof.
  intros H1 H2. unfold validate_ExpenseType.
  destruct (String.eqb_spec s "Standard"); [done|].
  by destruct (String.eqb_spec s "Subscription").
Qed.

Lemma validate_ExpenseRecord_invalid_expense_type (d de : list (string * json))
    (s : string) :
  dict_get "expense" d = Some (PyDict de) ->
  dict_get "expense_type" de = Some (PyStr s) ->
  s ≠ "Standard" -> s ≠ "Subscription" ->
  has_error (LineError enum [LKey "expense"; LKey "expense_type"])
    (validate_ExpenseRecord coerce_float (PyDict d)).
Proof.
  intros Hd Hde H1 H2. unfold validate_ExpenseRecord, ExpenseImageData_fields.
  rewrite has_error_ap, has_error_map, has_error_ap. left. right.
  apply has_error_field_default.
  exists (PyDict de), (LineError enum [LKey "expense_type"]).
  split; [assumption|]. split; [reflexivity|].
  unfold validate_optional, validate_Expense.
  rewrite has_error_map, !has_error_ap, has_error_map. left. right.
  apply has_error_field_default.
  exists (PyStr s), (LineError enum []).
  split; [assumption|]. split; [reflexivity|].
  rewrite validate_ExpenseType_invalid by assumption. cbn. by apply list_elem_of_singleton.
Qed.

Lemma get_latest_expenses_answered (skip limit : Z)
    (from_date to_date text_input : option string) (w : world) (key : string)
    (status : Z) (body : json) :
  environ w !! "EXPENSELM_API_KEY" = Some key ->
  (forall req, remote w req = Reply {| status_code := status; decoded := Some body |}) ->
  fst (get_latest_expenses coerce_float skip limit from_date to_date text_input w)
  = fst (raise_invalid (validate_list (validate_ExpenseRecord coerce_float) body) w).
Proof.
  intros Hkey Hremote. unfold get_latest_expenses, io_bind at 1.
  rewrite (_get_headers_set w key Hkey).
  unfold io_bind, client_get. rewrite Hremote. cbn.
  by destruct (raise_invalid _ w).
Qed.

(** C7: a JSON array with one element whose [expense_type] is not a tag
    of [ExpenseType] (such as ["Recurring"]) fails as a whole: the validation
    yields errors, among them an [enum] error at that element's
    [expense.expense_type], and [get_latest_expenses] raises the
    [ValidationError] instead of returning any list. *)
Theorem invalid_expense_type_fails_the_batch (l1 l2 : list json)
    (d de : list (string * json)) (s : string) (skip limit : Z)
    (from_date to_date text_input : option string) (w : world) (key : string)
    (status : Z) :
  dict_get "expense" d = Some (PyDict de) ->
  dict_get "expense_type" de = Some (PyStr s) ->
  s ≠ "Standard" ->
  s ≠ "Subscription" ->
  environ w !! "EXPENSELM_API_KEY" = Some key ->
  (forall req, remote w req
               = Reply {| status_code := status;
                          decoded := Some (PyList (l1 ++ PyDict d :: l2)) |}) ->
  exists errs : list line_error,
    validate_list (validate_ExpenseRecord coerce_float) (PyList (l1 ++ PyDict d :: l2))
    = Err errs
    /\ LineError enum [LIdx (length l1); LKey "expense"; LKey "expense_type"] ∈ errs
    /\ fst (get_latest_expenses coerce_float skip limit from_date to_date text_input w)
       = Raise (ValidationError errs).
Proof.
  intros Hd Hde H1 H2 Hkey Hremote.
  pose proof (validate_ExpenseRecord_invalid_expense_type d de s Hd Hde H1 H2) as Hbad.
  assert (has_error (LineError enum [LIdx (length l1); LKey "expense"; LKey "expense_type"])
            (validate_list (validate_ExpenseRecord coerce_float)
               (PyList (l1 ++ PyDict d :: l2)))) as Hall.
  { cbn [validate_list]. apply has_error_validate_elements.
    exists (length l1), (PyDict d), (LineError enum [LKey "expense"; LKey "expense_type"]).
    split; [by rewrite list_lookup_middle|]. by split. }
  rewrite (get_latest_expenses_answered _ _ _ _ _ w key status _ Hkey Hremote).
  destruct (validate_list _ _) as [l|errs]; [done|].
  exists errs. by repeat split.
Qed.

(** *** get_expense_by_id *)

(** C3: [get_expense_by_id] sends one GET to [/expenses/{id}] without
    query parameters; when the decoded body conforms to [ExpenseImageData],
    the call hands that decoded object to [model_validate_json], which takes
    JSON text only, and raises a [json_type] validation error instead of
    returning the record. *)
Theorem get_expense_by_id_refuses_conforming_body (id : string) (w : world)
    (key : string) (status : Z) (body : json) (x : ExpenseImageData) :
  environ w !! "EXPENSELM_API_KEY" = Some key ->
  (forall req, remote w req = Reply {| status_code := status; decoded := Some body |}) ->
  validate_ExpenseImageData coerce_float body = Ok x ->
  get_expense_by_id coerce_float from_json id w
  = (Raise (ValidationError [LineError json_type []]),
     [{| url := _EXPENSELM_API_ENDPOINT +:+ "/expenses/" +:+ id;
         headers := {[ "EXPENSELM_API_KEY" := key ]};
         params := None;
         timeout := _EXPENSELM_TIMEOUT |}]).
Proof.
  intros Hkey Hremote Hbody.
  destruct body as [| | | | | |d]; try discriminate.
  unfold get_expense_by_id, io_bind at 1. rewrite (_get_headers_set w key Hkey).
  unfold io_bind, client_get. rewrite Hremote. reflexivity.
Qed.

(** *** The status code *)

Lemma status_not_read {A} (u : string) (p : option (gmap string param_value))
    (v : json -> result A) (status : Z) (w : world) :
  let tool := (h <~ _get_headers ;;
               r <~ client_get u h p _EXPENSELM_TIMEOUT ;;
               body <~ response_json r ;;
               raise_invalid (v body)) in
  tool (with_status status w) = tool w
  /\ forall r, fst (tool w) ≠ Raise (HTTPStatusError r).
Proof.
  cbv zeta.
  unfold io_bind, _get_headers, _get_api_key, io_bind, os_getenv, client_get,
    response_json.
  cbn [environ remote with_status].
  destruct (environ w !! "EXPENSELM_API_KEY") as [key|]; cbn; [|done].
  destruct (remote w _) as [r|cause]; cbn; [|done].
  destruct (decoded r) as [x|]; cbn; [|done].
  by destruct (v x).
Qed.

Lemma io_map_status_not_read {A B} (f : A -> B) (tool : io A) (status : Z) (w : world) :
  (tool (with_status status w) = tool w
   /\ forall r, fst (tool w) ≠ Raise (HTTPStatusError r)) ->
  io_map f tool (with_status status w) = io_map f tool w
  /\ forall r, fst (io_map f tool w) ≠ Raise (HTTPStatusError r).
Proof.
  intros [Heq Hne]. unfold io_map, io_bind. rewrite Heq. split; [reflexivity|].
  intros r. specialize (Hne r). destruct (tool w) as [[a|e] sent]; cbn in *.
  - discriminate.
  - intros [= ->]. by apply Hne.
Qed.

(** C2, amended: no tool reads the HTTP status.  The outcome of a call
    and the request it sends are the same whatever status code the response
    carries, and no call ever ends in an error that carries the status code
    of the response: the body is decoded and validated as for a success. *)
Theorem status_code_is_never_read (c : tool_call) (w : world) (status : Z) :
  call_tool coerce_float from_json c (with_status status w)
  = call_tool coerce_float from_json c w
  /\ forall r, fst (call_tool coerce_float from_json c w) ≠ Raise (HTTPStatusError r).
Proof.
  destruct c; unfold call_tool; apply io_map_status_not_read; apply status_not_read.
Qed.

End Properties.

(** ** Closed instances *)

(** Without a key, [get_expense_by_id] raises and sends nothing. *)
Lemma unset_key_raises_before_any_request_witness :
  environ (unconfigured no_expenses) !! "EXPENSELM_API_KEY" = None
  /\ call_tool no_coercion no_text (GetExpenseById "abc123") (unconfigured no_expenses)
     = (Raise (ValueError "EXPENSELM_API_KEY is not set"), []).
Proof.
  split; [reflexivity|].
  apply (unset_key_raises_before_any_request no_coercion no_text
           (GetExpenseById "abc123") (unconfigured no_expenses)).
  reflexivity.
Defined.

(** C1: with limit 0 and with limit 101, both outside the range that
    [ExpenseSearchRequest] declares, [get_latest_expenses] sends its request
    with that limit and returns what the remote answers. *)
Theorem limit_out_of_range_is_sent :
  ExpenseSearchRequest_limit_ok 0 = false
  /\ ExpenseSearchRequest_limit_ok 101 = false
  /\ get_latest_expenses no_coercion 0 0 None None None (answering "k" no_expenses)
     = (Return [],
        [list_request "/expenses/" "k" (<[ "limit" := PInt 0 ]> {[ "skip" := PInt 0 ]})])
  /\ get_latest_expenses no_coercion 0 101 None None None (answering "k" no_expenses)
     = (Return [],
        [list_request "/expenses/" "k" (<[ "limit" := PInt 101 ]> {[ "skip" := PInt 0 ]})]).
Proof. repeat split; reflexivity. Qed.

(** A 404 whose body is [{"detail": "Not Found"}] ends in a validation
    error, for the list tool and for [get_expense_by_id] alike, and not in an
    error that carries the status. *)
Lemma not_found_is_not_a_remote_error :
  is_success (status_code not_found) = false
  /\ fst (call_tool no_coercion no_text (GetLatestExpenses 0 10 None None None)
            (answering "k" not_found))
     = Raise (ValidationError [LineError list_type []])
  /\ fst (call_tool no_coercion no_text (GetExpenseById "abc123")
            (answering "k" not_found))
     = Raise (ValidationError [LineError json_type []])
  /\ fst (call_tool no_coercion no_text (GetExpenseById "abc123")
            (answering "k" not_found))
     ≠ Raise (HTTPStatusError not_found).
Proof. repeat split; try reflexivity. discriminate. Qed.

(** The body [{"image": null, "expense": null}] conforms to the schema and
    is refused. *)
Lemma get_expense_by_id_refuses_conforming_body_witness :
  validate_ExpenseImageData no_coercion empty_record
  = Ok {| image := None; expense := None |}
  /\ get_expense_by_id no_coercion no_text "abc123"
       (answering "k" {| status_code := 200; decoded := Some empty_record |})
     = (Raise (ValidationError [LineError json_type []]),
        [{| url := "https://api.expenselm.ai/expenses/abc123";
            headers := {[ "EXPENSELM_API_KEY" := "k" ]};
            params := None;
            timeout := 60%float |}]).
Proof.
  split; [reflexivity|].
  apply (get_expense_by_id_refuses_conforming_body no_coercion no_text "abc123"
           (answering "k" {| status_code := 200; decoded := Some empty_record |})
           "k" 200 empty_record {| image := None; expense := None |});
    reflexivity.
Defined.

(** [from_date] supplied as the empty string is not [None], and the query
    sent has no [from_date]. *)
Lemma empty_from_date_is_left_out :
  1 <= 10 <= 100
  /\ 0 <= 0
  /\ is_Some (Some "")
  /\ snd (get_latest_expenses no_coercion 0 10 (Some "") None None
            (answering "k" no_expenses))
     = [list_request "/expenses/" "k" (<[ "limit" := PInt 10 ]> {[ "skip" := PInt 0 ]})]
  /\ (<[ "limit" := PInt 10 ]> {[ "skip" := PInt 0 ]} : gmap string param_value)
       !! "from_date" = None.
Proof. repeat split; try reflexivity; try lia. by exists "". Qed.

(** A call with [from_date] set, [to_date] omitted and [text_input] empty. *)
Lemma query_of_get_latest_expenses_witness :
  exists p : gmap string param_value,
    snd (get_latest_expenses no_coercion 20 50 (Some "2024-01-01") None (Some "")
           (answering "k" no_expenses))
    = [list_request "/expenses/" "k" p]
    /\ p !! "skip" = Some (PInt 20)
    /\ p !! "limit" = Some (PInt 50)
    /\ p !! "from_date" = Some (PStr "2024-01-01")
    /\ p !! "to_date" = None
    /\ p !! "text_input" = None
    /\ (forall k, k ∉ list_param_names -> p !! k = None)
    /\ (forall k, p !! k ≠ Some (PStr "")).
Proof.
  apply (query_of_get_latest_expenses no_coercion 20 50 (Some "2024-01-01") None (Some "")
           (answering "k" no_expenses) "k"); [lia | lia | reflexivity].
Defined.

(** A negative [skip] goes out as it is. *)
Lemma skip_is_forwarded_unchecked_witness :
  (exists p : gmap string param_value,
     snd (get_latest_expenses no_coercion (-5) 10 None None None
            (answering "k" no_expenses))
     = [list_request "/expenses/" "k" p]
     /\ p !! "skip" = Some (PInt (-5)))
  /\ (exists p : gmap string param_value,
        snd (get_latest_subscription_expenses no_coercion (-5) 10 None None None
               (answering "k" no_expenses))
        = [list_request "/subscriptions/" "k" p]
        /\ p !! "skip" = Some (PInt (-5))).
Proof.
  apply (skip_is_forwarded_unchecked no_coercion (-5) 10 None None None
           (answering "k" no_expenses) "k").
  reflexivity.
Defined.

(** An image whose file name is the empty string validates. *)
Lemma unnamed_receipt_is_valid :
  validate_ExpenseImage unnamed_receipt
  = Ok {| image_type := Receipt; image_file_name := "" |}
  /\ image_file_name {| image_type := Receipt; image_file_name := "" |} = "".
Proof. split; reflexivity. Qed.

(** The file name of that image is the string of the payload. *)
Lemma image_file_name_as_given_witness :
  validate_ExpenseImage unnamed_receipt
  = Ok {| image_type := Receipt; image_file_name := "" |}
  /\ exists d, unnamed_receipt = PyDict d
               /\ dict_get "image_file_name" d = Some (PyStr "").
Proof.
  split; [reflexivity|].
  apply (image_file_name_as_given unnamed_receipt
           {| image_type := Receipt; image_file_name := "" |}).
  reflexivity.
Defined.

(** A valid record followed by one whose [expense_type] is ["Recurring"]. *)
Lemma invalid_expense_type_fails_the_batch_witness :
  exists errs : list line_error,
    validate_list (validate_ExpenseRecord no_coercion)
      (PyList ([PyDict [("id", PyStr "r1")]] ++ PyDict recurring_record :: []))
    = Err errs
    /\ LineError enum [LIdx 1; LKey "expense"; LKey "expense_type"] ∈ errs
    /\ fst (get_latest_expenses no_coercion 0 10 None None None
              (answering "k"
                 {| status_code := 200;
                    decoded := Some (PyList ([PyDict [("id", PyStr "r1")]]
                                             ++ PyDict recurring_record :: [])) |}))
       = Raise (ValidationError errs).
Proof.
  apply (invalid_expense_type_fails_the_batch no_coercion
           [PyDict [("id", PyStr "r1")]] [] recurring_record
           [("expense_type", PyStr "Recurring")] "Recurring" 0 10 None None None
           (answering "k"
              {| status_code := 200;
                 decoded := Some (PyList ([PyDict [("id", PyStr "r1")]]
                                          ++ PyDict recurring_record :: [])) |})
           "k" 200);
    try reflexivity; discriminate.
Defined.

(** ** Further properties *)

Section Transport.

Variable coerce_float : json -> option float.
Variable from_json : string -> option json.

(** With the key at hand a tool makes its one request and settles on the
    answer. *)
Lemma tool_run {A} (u : string) (p : option (gmap string param_value))
    (v : json -> result A) (w : world) (key : string) :
  environ w !! "EXPENSELM_API_KEY" = Some key ->
  let req := {| url := u; headers := {[ "EXPENSELM_API_KEY" := key ]}; params := p;
                timeout := _EXPENSELM_TIMEOUT |} in
  (h <~ _get_headers ;;
   r <~ client_get u h p _EXPENSELM_TIMEOUT ;;
   body <~ response_json r ;;
   raise_invalid (v body)) w
  = (settle v (remote w req), [req]).
Proof.
  intros H req. unfold io_bind at 1. rewrite (_get_headers_set w key H).
  unfold io_bind, client_get, response_json, settle. fold req.
  destruct (remote w req) as [r|cause]; [|reflexivity].
  destruct (decoded r) as [x|]; [|reflexivity].
  cbn. destruct (v x); reflexivity.
Qed.

Lemma io_map_run {A B} (f : A -> B) (tool : io A) (w : world) (o : outcome A)
    (sent : list request) :
  tool w = (o, sent) -> io_map f tool w = (outcome_map f o, sent).
Proof.
  intros H. unfold io_map, io_bind. rewrite H.
  destruct o; cbn; [by rewrite app_nil_r|reflexivity].
Qed.

Lemma call_tool_sent (c : tool_call) (w : world) (key : string) :
  environ w !! "EXPENSELM_API_KEY" = Some key ->
  snd (call_tool coerce_float from_json c w) = [tool_request c key].
Proof.
  intros H. destruct c; unfold call_tool;
    erewrite io_map_run by (by apply tool_run); reflexivity.
Qed.

Lemma call_tool_nothing_sent (c : tool_call) (w : world) :
  environ w !! "EXPENSELM_API_KEY" = None ->
  snd (call_tool coerce_float from_json c w) = [].
Proof.
  intros H.
  destruct c; unfold call_tool, io_map, io_bind at 1;
    [ unfold get_latest_expenses
    | unfold get_expense_by_id
    | unfold get_latest_subscription_expenses
    | unfold get_expense_summary_by_month_by_currency
    | unfold get_expense_summary_by_category_by_currency
    | unfold get_expense_summary_by_subscription_by_currency ];
    unfold io_bind at 1; rewrite (_get_headers_unset w H); reflexivity.
Qed.


(** X2: every request a tool sends is a request to the fixed endpoint
    with the 60 second timeout and exactly one header, [EXPENSELM_API_KEY],
    whose value is the environment variable as it is read (the empty string
    included). *)
Theorem request_carries_the_key (c : tool_call) (w : world) (req : request) :
  req ∈ snd (call_tool coerce_float from_json c w) ->
  exists key,
    environ w !! "EXPENSELM_API_KEY" = Some key
    /\ headers req = {[ "EXPENSELM_API_KEY" := key ]}
    /\ timeout req = 60%float
    /\ exists path, url req = "https://api.expenselm.ai" +:+ path.
Proof.
  intros Hin. destruct (environ w !! "EXPENSELM_API_KEY") as [key|] eqn:H.
  - rewrite (call_tool_sent c w key H) in Hin. apply list_elem_of_singleton in Hin as ->.
    exists key. split; [reflexivity|].
    destruct c; (split; [reflexivity|]); (split; [reflexivity|]); eexists; reflexivity.
  - rewrite (call_tool_nothing_sent c w H) in Hin. by apply elem_of_nil in Hin.
Qed.

(** X3: when the transport fails, every tool raises the transport error
    with its cause after the one request; no second attempt is made. *)
Theorem transport_failure_is_raised (c : tool_call) (w : world) (key cause : string) :
  environ w !! "EXPENSELM_API_KEY" = Some key ->
  (forall req, remote w req = NoReply cause) ->
  call_tool coerce_float from_json c w
  = (Raise (TransportError cause), [tool_request c key]).
Proof.
  intros H Hremote. destruct c; unfold call_tool;
    erewrite io_map_run by (by apply tool_run); by rewrite Hremote.
Qed.

(** X4: when the body of the response is not JSON, every tool raises the
    decoding error of [r.json()], whatever the status code. *)
Theorem undecodable_body_is_raised (c : tool_call) (w : world) (key : string)
    (status : Z) :
  environ w !! "EXPENSELM_API_KEY" = Some key ->
  (forall req, remote w req = Reply {| status_code := status; decoded := None |}) ->
  call_tool coerce_float from_json c w = (Raise JSONDecodeError, [tool_request c key]).
Proof.
  intros H Hremote. destruct c; unfold call_tool;
    erewrite io_map_run by (by apply tool_run); by rewrite Hremote.
Qed.

(** X5: a tool that returns a list refuses a body that is not a JSON
    array (an object, a string, null, ...) with a [list_type] validation
    error at the root. *)
Theorem list_tools_refuse_non_arrays (c : tool_call) (w : world) (key : string)
    (status : Z) (body : json) :
  returns_a_list c = true ->
  (forall l, body ≠ PyList l) ->
  environ w !! "EXPENSELM_API_KEY" = Some key ->
  (forall req, remote w req = Reply {| status_code := status; decoded := Some body |}) ->
  fst (call_tool coerce_float from_json c w)
  = Raise (ValidationError [LineError list_type []]).
Proof.
  intros Hc Hbody H Hremote.
  assert (forall A (v : json -> result A), validate_list v body = fail_with list_type)
    as Hv.
  { intros A v. destruct body; try reflexivity. by destruct (Hbody l). }
  destruct c; try discriminate; unfold call_tool;
    erewrite io_map_run by (by apply tool_run); rewrite Hremote; cbn;
    by rewrite Hv.
Qed.

Lemma period_search_params_query (from_date to_date : string) :
  period_query from_date to_date (period_search_params from_date to_date).
Proof.
  unfold period_query, period_search_params. split; [|split].
  - rewrite lookup_insert_ne by done. by rewrite lookup_singleton_eq.
  - by rewrite lookup_insert_eq.
  - intros k H1 H2. rewrite lookup_insert_ne by done. by rewrite lookup_singleton_ne.
Qed.

(** X6: each summary tool sends its one GET to its own path with exactly
    the two parameters [from_date] and [to_date], holding the arguments as
    they were given: no truth test is applied, so an empty string is sent as
    an empty string. *)
Theorem summary_tools_send_both_dates (from_date to_date : string) (w : world)
    (key : string) :
  environ w !! "EXPENSELM_API_KEY" = Some key ->
  exists p : gmap string param_value,
    period_query from_date to_date p
    /\ snd (get_expense_summary_by_month_by_currency coerce_float from_date to_date w)
       = [list_request "/stats/summary-by-month-by-currency" key p]
    /\ snd (get_expense_summary_by_category_by_currency coerce_float from_date to_date w)
       = [list_request "/stats/summary-by-category-by-currency" key p]
    /\ snd (get_expense_summary_by_subscription_by_currency coerce_float from_date
              to_date w)
       = [list_request "/stats/summary-by-subscription-by-currency" key p].
Proof.
  intros H. exists (period_search_params from_date to_date).
  split; [apply period_search_params_query|].
  unfold get_expense_summary_by_month_by_currency,
    get_expense_summary_by_category_by_currency,
    get_expense_summary_by_subscription_by_currency.
  by rewrite !(tool_run _ _ _ w key H).
Qed.

(** X7: [get_latest_subscription_expenses] sends the query that
    [get_latest_expenses] sends for the same arguments, with the same header,
    to [/subscriptions/] instead of [/expenses/]: [skip], [limit], and the
    optional arguments that are non-empty strings. *)
Theorem subscription_query_is_the_expenses_query (skip limit : Z)
    (from_date to_date text_input : option string) (w : world) (key : string) :
  environ w !! "EXPENSELM_API_KEY" = Some key ->
  exists p : gmap string param_value,
    list_query skip limit from_date to_date text_input p
    /\ snd (get_latest_subscription_expenses coerce_float skip limit from_date to_date
              text_input w)
       = [list_request "/subscriptions/" key p]
    /\ snd (get_latest_expenses coerce_float skip limit from_date to_date text_input w)
       = [list_request "/expenses/" key p].
Proof.
  intros H. exists (list_search_params skip limit from_date to_date text_input).
  split; [apply list_search_params_lookup|].
  unfold get_latest_subscription_expenses, get_latest_expenses.
  by rewrite !(tool_run _ _ _ w key H).
Qed.

End Transport.

Section Schemas.

Variable coerce_float : json -> option float.
Variable from_json : string -> option json.

Lemma at_loc_ok {A} (i : loc_item) (r : result A) (a : A) :
  at_loc i r = Ok a <-> r = Ok a.
Proof. destruct r; cbn; split; congruence. Qed.

Lemma validate_elements_ok {A} (v : json -> result A) (l : list json) (l' : list A)
    (i : nat) :
  validate_elements v i l = Ok l' <-> Forall2 (fun x a => v x = Ok a) l l'.
Proof.
  revert i l'. induction l as [|x l IH]; intros i l'; cbn [validate_elements].
  - split.
    + intros [= <-]. constructor.
    + intros H. by inversion H.
  - split.
    + intros H. destruct (v x) as [a|errs] eqn:Hx; cbn in H.
      * destruct (validate_elements v (S i) l) as [l0|errs] eqn:Hl; [|discriminate].
        cbn in H. injection H as <-. constructor; [assumption|]. by apply (IH (S i)).
      * by destruct (validate_elements v (S i) l).
    + intros H. inversion H as [|x0 a l0 la Hx Hl]; subst.
      rewrite Hx. cbn. apply (IH (S i)) in Hl. by rewrite Hl.
Qed.

(** X8: a JSON array validates as a list exactly when each element
    validates, and the list returned holds the validated elements in the
    order of the array: same length, element for element. *)
Theorem batch_validates_element_for_element {A} (v : json -> result A)
    (l : list json) (l' : list A) :
  validate_list v (PyList l) = Ok l' <-> Forall2 (fun x a => v x = Ok a) l l'.
Proof. apply validate_elements_ok. Qed.

Lemma validate_ExpenseImageType_ok (x : json) (t : ExpenseImageType) :
  validate_ExpenseImageType x = Ok t -> x = PyStr (ExpenseImageType_value t).
Proof.
  destruct x as [| | | |s| |]; try discriminate. unfold validate_ExpenseImageType.
  destruct (String.eqb_spec s "Receipt") as [->|_].
  { intros [= <-]. reflexivity. }
  destruct (String.eqb_spec s "Invoice") as [->|_].
  { intros [= <-]. reflexivity. }
  destruct (String.eqb_spec s "Others") as [->|_]; [|discriminate].
  intros [= <-]. reflexivity.
Qed.

(** X9: the enum fields accept their literal tags and nothing else: a
    value validates to a tag exactly when it is the string that names the
    tag, letter for letter. *)
Theorem enum_tags_are_exact (x : json) (t : ExpenseType) (t' : ExpenseImageType) :
  (validate_ExpenseType x = Ok t <-> x = PyStr (ExpenseType_value t))
  /\ (validate_ExpenseImageType x = Ok t' <-> x = PyStr (ExpenseImageType_value t')).
Proof.
  split; split.
  - destruct x as [| | | |s| |]; try discriminate. unfold validate_ExpenseType.
    destruct (String.eqb_spec s "Standard") as [->|_].
    { intros [= <-]. reflexivity. }
    destruct (String.eqb_spec s "Subscription") as [->|_]; [|discriminate].
    intros [= <-]. reflexivity.
  - intros ->. by destruct t.
  - apply validate_ExpenseImageType_ok.
  - intros ->. by destruct t'.
Qed.

Lemma field_default_ext {A} (k : string) (v : json -> result A) (default : A)
    (d d' : list (string * json)) :
  dict_get k d = dict_get k d' -> field_default k v default d = field_default k v default d'.
Proof. unfold field_default. by intros ->. Qed.

Lemma field_ext {A} (k : string) (v : json -> result A) (d d' : list (string * json)) :
  dict_get k d = dict_get k d' -> field k v d = field k v d'.
Proof. unfold field. by intros ->. Qed.

(** X10: the validation of an [Expense] reads the nine declared keys
    and nothing else: two objects that agree on them validate alike, whatever
    other members they hold. *)
Theorem Expense_ignores_other_keys (d d' : list (string * json)) :
  (forall k, k ∈ Expense_keys -> dict_get k d = dict_get k d') ->
  validate_Expense coerce_float (PyDict d) = validate_Expense coerce_float (PyDict d').
Proof.
  intros H. unfold validate_Expense.
  rewrite !(field_default_ext _ _ _ d d'); [reflexivity|..];
    apply H; unfold Expense_keys; set_solver.
Qed.

(** X11: the validation of an [ExpenseRecord] reads the keys [image],
    [expense] and [id] and nothing else. *)
Theorem ExpenseRecord_ignores_other_keys (d d' : list (string * json)) :
  (forall k, k ∈ ExpenseRecord_keys -> dict_get k d = dict_get k d') ->
  validate_ExpenseRecord coerce_float (PyDict d)
  = validate_ExpenseRecord coerce_float (PyDict d').
Proof.
  intros H. unfold validate_ExpenseRecord, ExpenseImageData_fields.
  rewrite !(field_default_ext _ _ _ d d'), (field_ext _ _ d d'); [reflexivity|..];
    apply H; unfold ExpenseRecord_keys; set_solver.
Qed.

(** X12: an [ExpenseImage] validates exactly when the payload is an
    object whose [image_type] is the name of a tag and whose
    [image_file_name] is a string; both keys are required. *)
Theorem ExpenseImage_valid_iff (x : json) (img : ExpenseImage) :
  validate_ExpenseImage x = Ok img
  <-> exists d, x = PyDict d
                /\ dict_get "image_type" d
                   = Some (PyStr (ExpenseImageType_value (image_type img)))
                /\ dict_get "image_file_name" d = Some (PyStr (image_file_name img)).
Proof.
  split.
  - intros H. destruct x as [| | | | | |d]; try discriminate.
    exists d. split; [reflexivity|].
    unfold validate_ExpenseImage, field in H.
    destruct (dict_get "image_type" d) as [t|]; cycle 1.
    { destruct (dict_get "image_file_name" d) as [y|]; [|discriminate].
      by destruct (validate_str y). }
    destruct (validate_ExpenseImageType t) as [ty|errs] eqn:Ht; cycle 1.
    { destruct (dict_get "image_file_name" d) as [y|]; [|discriminate].
      by destruct (validate_str y). }
    destruct (dict_get "image_file_name" d) as [y|]; [|discriminate].
    destruct y; try discriminate. cbn in H. injection H as <-. cbn.
    split; [|reflexivity].
    by apply validate_ExpenseImageType_ok in Ht as ->.
  - intros (d & -> & Ht & Hn). unfold validate_ExpenseImage, field.
    rewrite Ht, Hn. by destruct img as [[] n].
Qed.

Lemma validate_optional_None {A} (v : json -> result A) (y : json) (o : option A) :
  validate_optional v y = Ok o -> (o = None <-> y = PyNone).
Proof.
  unfold validate_optional. destruct y; try (intros [= <-]; done);
    destruct (v _); cbn; try discriminate; intros [= <-]; done.
Qed.

Lemma optional_field_None {A} (k : string) (v : json -> result A)
    (d : list (string * json)) (o : option A) :
  field_default k (validate_optional v) None d = Ok o ->
  (o = None <-> dict_get k d = None \/ dict_get k d = Some PyNone).
Proof.
  unfold field_default. destruct (dict_get k d) as [y|].
  - rewrite at_loc_ok. intros H. apply validate_optional_None in H. rewrite H.
    split; [intros ->; by right | intros [[=]|[= ->]]; reflexivity].
  - intros [= <-]. split; [by left | reflexivity].
Qed.

(** X13: in a validated [ExpenseImageData] the image is absent exactly
    when the key [image] is missing or null, and the expense is absent
    exactly when the key [expense] is missing or null, each independently of
    the other. *)
Theorem absent_members_are_None (d : list (string * json)) (x : ExpenseImageData) :
  validate_ExpenseImageData coerce_float (PyDict d) = Ok x ->
  (image x = None <-> dict_get "image" d = None \/ dict_get "image" d = Some PyNone)
  /\ (expense x = None
      <-> dict_get "expense" d = None \/ dict_get "expense" d = Some PyNone).
Proof.
  unfold validate_ExpenseImageData, ExpenseImageData_fields. intros H.
  destruct (field_default "image" _ None d) as [i|] eqn:Hi;
    destruct (field_default "expense" _ None d) as [e|] eqn:He; try discriminate.
  injection H as <-. cbn. split.
  - by apply optional_field_None in Hi.
  - by apply optional_field_None in He.
Qed.

End Schemas.

Section EndToEnd.

Variable coerce_float : json -> option float.
Variable from_json : string -> option json.

Lemma validate_list_encoded {A} (v : json -> result A) (enc : A -> json) (rows : list A) :
  (forall r, v (enc r) = Ok r) ->
  validate_list v (PyList (map enc rows)) = Ok rows.
Proof.
  intros Hv. apply validate_elements_ok.
  induction rows as [|r rows IH]; constructor; [apply Hv|apply IH].
Qed.

Lemma validate_Expense_json (e : Expense) :
  validate_Expense coerce_float (Expense_json e) = Ok e.
Proof.
  destruct e as [sn sa dt ec cu ta its et rm].
  unfold Expense_json, Expense_members, validate_Expense, field_default.
  cbn -[validate_elements validate_ExpenseType validate_ExpenseItem].
  by rewrite validate_elements_ExpenseItem_json, validate_ExpenseType_value.
Qed.

Lemma validate_ExpenseImage_json (i : ExpenseImage) :
  validate_ExpenseImage (ExpenseImage_json i) = Ok i.
Proof. by destruct i as [[] n]. Qed.

Lemma validate_ExpenseRecord_json (r : ExpenseRecord) :
  validate_ExpenseRecord coerce_float (ExpenseRecord_json r) = Ok r.
Proof.
  destruct r as [[i e] n].
  unfold ExpenseRecord_json, validate_ExpenseRecord, ExpenseImageData_fields,
    field_default, field.
  cbn -[validate_Expense validate_ExpenseImage Expense_json ExpenseImage_json].
  destruct i as [i|], e as [e|];
    cbn -[validate_Expense validate_ExpenseImage Expense_json ExpenseImage_json];
    unfold validate_optional;
    rewrite ?validate_ExpenseImage_json; try reflexivity.
  - change (optional_json Expense_json (Some e)) with (Expense_json e).
    unfold Expense_json at 1. fold (Expense_json e).
    by rewrite validate_Expense_json.
  - unfold Expense_json at 1. fold (Expense_json e).
    by rewrite validate_Expense_json.
Qed.

(** X14: when the remote answers with an array of objects that match
    the [ExpenseRecord] schema, with or without image and expense, both list
    tools return exactly those records, in the order of the array, whatever
    the status code of the response. *)
Theorem list_tools_return_the_records (records : list ExpenseRecord) (skip limit : Z)
    (from_date to_date text_input : option string) (w : world) (key : string)
    (status : Z) :
  environ w !! "EXPENSELM_API_KEY" = Some key ->
  (forall req, remote w req
               = Reply {| status_code := status;
                          decoded := Some (PyList (map ExpenseRecord_json records)) |}) ->
  fst (get_latest_expenses coerce_float skip limit from_date to_date text_input w)
  = Return records
  /\ fst (get_latest_subscription_expenses coerce_float skip limit from_date to_date
            text_input w)
     = Return records.
Proof.
  intros H Hremote. unfold get_latest_expenses, get_latest_subscription_expenses.
  rewrite !(tool_run _ _ _ w key H), !Hremote. cbn [fst settle decoded].
  by rewrite (validate_list_encoded _ _ _ validate_ExpenseRecord_json).
Qed.

(** X15: a record without [id] fails the batch: the validation reports
    [missing] at that element's [id] and [get_latest_expenses] raises instead
    of returning the other records. *)
Theorem record_without_id_fails_the_batch (l1 l2 : list json)
    (d : list (string * json)) (skip limit : Z)
    (from_date to_date text_input : option string) (w : world) (key : string)
    (status : Z) :
  dict_get "id" d = None ->
  environ w !! "EXPENSELM_API_KEY" = Some key ->
  (forall req, remote w req
               = Reply {| status_code := status;
                          decoded := Some (PyList (l1 ++ PyDict d :: l2)) |}) ->
  exists errs : list line_error,
    fst (get_latest_expenses coerce_float skip limit from_date to_date text_input w)
    = Raise (ValidationError errs)
    /\ LineError missing [LIdx (length l1); LKey "id"] ∈ errs.
Proof.
  intros Hd H Hremote.
  assert (has_error (LineError missing [LIdx (length l1); LKey "id"])
            (validate_list (validate_ExpenseRecord coerce_float)
               (PyList (l1 ++ PyDict d :: l2)))) as Hall.
  { cbn [validate_list]. apply has_error_validate_elements.
    exists (length l1), (PyDict d), (LineError missing [LKey "id"]).
    split; [by rewrite list_lookup_middle|]. split; [reflexivity|].
    unfold validate_ExpenseRecord. rewrite has_error_ap. right.
    unfold field. rewrite Hd. by apply list_elem_of_singleton. }
  unfold get_latest_expenses. rewrite (tool_run _ _ _ w key H), Hremote.
  cbn [fst settle decoded].
  destruct (validate_list _ _) as [l|errs]; [done|].
  by exists errs.
Qed.

(** X16: when the remote answers the monthly summary with an array of
    rows [{month, currency, total_amount}], the tool returns those rows with
    their values, in the order of the array. *)
Theorem month_summary_returns_the_rows (rows : list MonthCurAmtStatItem)
    (from_date to_date : string) (w : world) (key : string) (status : Z) :
  environ w !! "EXPENSELM_API_KEY" = Some key ->
  (forall req, remote w req
               = Reply {| status_code := status;
                          decoded := Some (PyList (map MonthCurAmtStatItem_json rows)) |}) ->
  fst (get_expense_summary_by_month_by_currency coerce_float from_date to_date w)
  = Return rows.
Proof.
  intros H Hremote. unfold get_expense_summary_by_month_by_currency.
  rewrite (tool_run _ _ _ w key H), Hremote. cbn [fst settle decoded].
  rewrite (validate_list_encoded _ MonthCurAmtStatItem_json); [reflexivity|].
  by intros [].
Qed.

(** X17: the same for the summary by category. *)
Theorem category_summary_returns_the_rows (rows : list CategoryCurAmtStatItem)
    (from_date to_date : string) (w : world) (key : string) (status : Z) :
  environ w !! "EXPENSELM_API_KEY" = Some key ->
  (forall req, remote w req
               = Reply {| status_code := status;
                          decoded := Some (PyList (map CategoryCurAmtStatItem_json rows)) |}) ->
  fst (get_expense_summary_by_category_by_currency coerce_float from_date to_date w)
  = Return rows.
Proof.
  intros H Hremote. unfold get_expense_summary_by_category_by_currency.
  rewrite (tool_run _ _ _ w key H), Hremote. cbn [fst settle decoded].
  rewrite (validate_list_encoded _ CategoryCurAmtStatItem_json); [reflexivity|].
  by intros [].
Qed.

(** X18: the same for the summary by subscription. *)
Theorem subscription_summary_returns_the_rows (rows : list SubscriptionCurAmtStatItem)
    (from_date to_date : string) (w : world) (key : string) (status : Z) :
  environ w !! "EXPENSELM_API_KEY" = Some key ->
  (forall req, remote w req
               = Reply {| status_code := status;
                          decoded := Some (PyList (map SubscriptionCurAmtStatItem_json rows)) |}) ->
  fst (get_expense_summary_by_subscription_by_currency coerce_float from_date to_date w)
  = Return rows.
Proof.
  intros H Hremote. unfold get_expense_summary_by_subscription_by_currency.
  rewrite (tool_run _ _ _ w key H), Hremote. cbn [fst settle decoded].
  rewrite (validate_list_encoded _ SubscriptionCurAmtStatItem_json); [reflexivity|].
  by intros [].
Qed.

(** X19: a row of the monthly summary lacking one of its three fields
    fails the batch with a [missing] error at that field: the rows have no
    defaults. *)
Theorem summary_row_fields_are_required (l1 l2 : list json) (d : list (string * json))
    (k : string) :
  k ∈ ["month"; "currency"; "total_amount"] ->
  dict_get k d = None ->
  has_error (LineError missing [LIdx (length l1); LKey k])
    (validate_list (validate_MonthCurAmtStatItem coerce_float)
       (PyList (l1 ++ PyDict d :: l2))).
Proof.
  intros Hk Hd. cbn [validate_list]. apply has_error_validate_elements.
  exists (length l1), (PyDict d), (LineError missing [LKey k]).
  split; [by rewrite list_lookup_middle|]. split; [reflexivity|].
  unfold validate_MonthCurAmtStatItem.
  rewrite !has_error_ap, has_error_map. unfold field.
  rewrite !elem_of_cons in Hk. destruct Hk as [->|[->|[->|Hk]]].
  - left. left. rewrite Hd. by apply list_elem_of_singleton.
  - left. right. rewrite Hd. by apply list_elem_of_singleton.
  - right. rewrite Hd. by apply list_elem_of_singleton.
  - by apply elem_of_nil in Hk.
Qed.

(** X20: [get_expense_by_id] returns a record in one case only: the
    decoded body is a JSON string, the text in that string parses, and what
    it parses to validates as [ExpenseImageData]; the record returned is that
    validation's. *)
Theorem get_expense_by_id_returns_iff (id : string) (w : world) (key : string)
    (status : Z) (body : json) (x : ExpenseImageData) :
  environ w !! "EXPENSELM_API_KEY" = Some key ->
  (forall req, remote w req = Reply {| status_code := status; decoded := Some body |}) ->
  fst (get_expense_by_id coerce_float from_json id w) = Return x
  <-> exists text y, body = PyStr text
                     /\ from_json text = Some y
                     /\ validate_ExpenseImageData coerce_float y = Ok x.
Proof.
  intros H Hremote. unfold get_expense_by_id.
  rewrite (tool_run _ _ _ w key H), Hremote. cbn [fst settle decoded].
  unfold ExpenseImageData_model_validate_json. split.
  - destruct body as [| | | |text| |]; try discriminate.
    destruct (from_json text) as [y|] eqn:Hy; [|discriminate].
    destruct (validate_ExpenseImageData coerce_float y) as [x'|] eqn:Hx; [|discriminate].
    intros [= <-]. by exists text, y.
  - intros (text & y & -> & Hy & Hx). by rewrite Hy, Hx.
Qed.

End EndToEnd.

(** ** Closed instances of the further properties *)

(** An empty key is a key: the request goes out with it. *)
Lemma request_carries_the_key_witness :
  exists key,
    environ (answering "" no_expenses) !! "EXPENSELM_API_KEY" = Some key
    /\ headers (tool_request (GetExpenseById "abc123") "")
       = {[ "EXPENSELM_API_KEY" := key ]}
    /\ timeout (tool_request (GetExpenseById "abc123") "") = 60%float
    /\ exists path, url (tool_request (GetExpenseById "abc123") "")
                    = "https://api.expenselm.ai" +:+ path.
Proof.
  apply (request_carries_the_key no_coercion no_text (GetExpenseById "abc123")
           (answering "" no_expenses)).
  vm_compute. left.
Defined.

Lemma transport_failure_is_raised_witness :
  call_tool no_coercion no_text (GetLatestExpenses 0 10 None None None)
    (unreachable "k" "timed out")
  = (Raise (TransportError "timed out"),
     [tool_request (GetLatestExpenses 0 10 None None None) "k"]).
Proof.
  apply (transport_failure_is_raised no_coercion no_text
           (GetLatestExpenses 0 10 None None None) (unreachable "k" "timed out")
           "k" "timed out"); reflexivity.
Defined.

Lemma undecodable_body_is_raised_witness :
  call_tool no_coercion no_text (GetExpenseSummaryByMonthByCurrency "2024-01-01" "2024-03-31")
    (answering "k" {| status_code := 502; decoded := None |})
  = (Raise JSONDecodeError,
     [tool_request (GetExpenseSummaryByMonthByCurrency "2024-01-01" "2024-03-31") "k"]).
Proof.
  apply (undecodable_body_is_raised no_coercion no_text
           (GetExpenseSummaryByMonthByCurrency "2024-01-01" "2024-03-31")
           (answering "k" {| status_code := 502; decoded := None |}) "k" 502);
    reflexivity.
Defined.

Lemma list_tools_refuse_non_arrays_witness :
  fst (call_tool no_coercion no_text
         (GetExpenseSummaryByCategoryByCurrency "2024-01-01" "2024-03-31")
         (answering "k" not_found))
  = Raise (ValidationError [LineError list_type []]).
Proof.
  apply (list_tools_refuse_non_arrays no_coercion no_text
           (GetExpenseSummaryByCategoryByCurrency "2024-01-01" "2024-03-31")
           (answering "k" not_found) "k" 404 (PyDict [("detail", PyStr "Not Found")]));
    try reflexivity.
  discriminate.
Defined.

(** An empty [from_date] is sent as an empty string. *)
Lemma summary_tools_send_both_dates_witness :
  exists p : gmap string param_value,
    period_query "" "2024-03-31" p
    /\ snd (get_expense_summary_by_month_by_currency no_coercion "" "2024-03-31"
              (answering "k" no_expenses))
       = [list_request "/stats/summary-by-month-by-currency" "k" p]
    /\ snd (get_expense_summary_by_category_by_currency no_coercion "" "2024-03-31"
              (answering "k" no_expenses))
       = [list_request "/stats/summary-by-category-by-currency" "k" p]
    /\ snd (get_expense_summary_by_subscription_by_currency no_coercion ""
              "2024-03-31" (answering "k" no_expenses))
       = [list_request "/stats/summary-by-subscription-by-currency" "k" p].
Proof.
  apply (summary_tools_send_both_dates no_coercion "" "2024-03-31"
           (answering "k" no_expenses) "k").
  reflexivity.
Defined.

Lemma subscription_query_is_the_expenses_query_witness :
  exists p : gmap string param_value,
    list_query 5 20 None (Some "2024-03-31") (Some "coffee") p
    /\ snd (get_latest_subscription_expenses no_coercion 5 20 None (Some "2024-03-31")
              (Some "coffee") (answering "k" no_expenses))
       = [list_request "/subscriptions/" "k" p]
    /\ snd (get_latest_expenses no_coercion 5 20 None (Some "2024-03-31")
              (Some "coffee") (answering "k" no_expenses))
       = [list_request "/expenses/" "k" p].
Proof.
  apply (subscription_query_is_the_expenses_query no_coercion 5 20 None
           (Some "2024-03-31") (Some "coffee") (answering "k" no_expenses) "k").
  reflexivity.
Defined.

(** A member the model does not declare changes nothing. *)
Lemma Expense_ignores_other_keys_witness :
  validate_Expense no_coercion
    (PyDict [("shop_name", PyStr "Cafe"); ("loyalty_points", PyInt 12)])
  = validate_Expense no_coercion (PyDict [("shop_name", PyStr "Cafe")]).
Proof.
  apply (Expense_ignores_other_keys no_coercion
           [("shop_name", PyStr "Cafe"); ("loyalty_points", PyInt 12)]
           [("shop_name", PyStr "Cafe")]).
  intros k Hk. unfold Expense_keys in Hk. rewrite !elem_of_cons in Hk.
  destruct Hk as [->|[->|[->|[->|[->|[->|[->|[->|[->|Hk]]]]]]]]]; try reflexivity.
  by apply elem_of_nil in Hk.
Defined.

Lemma ExpenseRecord_ignores_other_keys_witness :
  validate_ExpenseRecord no_coercion
    (PyDict [("id", PyStr "r1"); ("created_at", PyStr "2024-01-05")])
  = validate_ExpenseRecord no_coercion (PyDict [("id", PyStr "r1")]).
Proof.
  apply (ExpenseRecord_ignores_other_keys no_coercion
           [("id", PyStr "r1"); ("created_at", PyStr "2024-01-05")]
           [("id", PyStr "r1")]).
  intros k Hk. unfold ExpenseRecord_keys in Hk. rewrite !elem_of_cons in Hk.
  destruct Hk as [->|[->|[->|Hk]]]; try reflexivity.
  by apply elem_of_nil in Hk.
Defined.

(** An image given, the expense null. *)
Lemma absent_members_are_None_witness :
  (image {| image := Some {| image_type := Invoice; image_file_name := "i.pdf" |};
            expense := None |} = None
   <-> dict_get "image" [("image", ExpenseImage_json
                                     {| image_type := Invoice;
                                        image_file_name := "i.pdf" |});
                         ("expense", PyNone)] = None
       \/ dict_get "image" [("image", ExpenseImage_json
                                        {| image_type := Invoice;
                                           image_file_name := "i.pdf" |});
                            ("expense", PyNone)] = Some PyNone)
  /\ (expense {| image := Some {| image_type := Invoice; image_file_name := "i.pdf" |};
                 expense := None |} = None
      <-> dict_get "expense" [("image", ExpenseImage_json
                                          {| image_type := Invoice;
                                             image_file_name := "i.pdf" |});
                              ("expense", PyNone)] = None
          \/ dict_get "expense" [("image", ExpenseImage_json
                                             {| image_type := Invoice;
                                                image_file_name := "i.pdf" |});
                                 ("expense", PyNone)] = Some PyNone).
Proof.
  apply (absent_members_are_None no_coercion
           [("image", ExpenseImage_json
                        {| image_type := Invoice; image_file_name := "i.pdf" |});
            ("expense", PyNone)]
           {| image := Some {| image_type := Invoice; image_file_name := "i.pdf" |};
              expense := None |}).
  reflexivity.
Defined.

Lemma list_tools_return_the_records_witness :
  fst (get_latest_expenses no_coercion 0 10 None None None
         (answering "k"
            {| status_code := 200;
               decoded := Some (PyList (map ExpenseRecord_json [coffee; bare])) |}))
  = Return [coffee; bare]
  /\ fst (get_latest_subscription_expenses no_coercion 0 10 None None None
            (answering "k"
               {| status_code := 200;
                  decoded := Some (PyList (map ExpenseRecord_json [coffee; bare])) |}))
     = Return [coffee; bare].
Proof.
  apply (list_tools_return_the_records no_coercion [coffee; bare] 0 10 None None None
           (answering "k"
              {| status_code := 200;
                 decoded := Some (PyList (map ExpenseRecord_json [coffee; bare])) |})
           "k" 200); reflexivity.
Defined.

Lemma record_without_id_fails_the_batch_witness :
  exists errs : list line_error,
    fst (get_latest_expenses no_coercion 0 10 None None None
           (answering "k"
              {| status_code := 200;
                 decoded := Some (PyList ([ExpenseRecord_json bare]
                                          ++ PyDict [("expense", PyNone)] :: [])) |}))
    = Raise (ValidationError errs)
    /\ LineError missing [LIdx 1; LKey "id"] ∈ errs.
Proof.
  apply (record_without_id_fails_the_batch no_coercion [ExpenseRecord_json bare] []
           [("expense", PyNone)] 0 10 None None None
           (answering "k"
              {| status_code := 200;
                 decoded := Some (PyList ([ExpenseRecord_json bare]
                                          ++ PyDict [("expense", PyNone)] :: [])) |})
           "k" 200); reflexivity.
Defined.

Lemma month_summary_returns_the_rows_witness :
  fst (get_expense_summary_by_month_by_currency no_coercion "2024-01-01" "2024-03-31"
         (answering "k"
            {| status_code := 200;
               decoded := Some (PyList (map MonthCurAmtStatItem_json
                                          [january; february])) |}))
  = Return [january; february].
Proof.
  apply (month_summary_returns_the_rows no_coercion [january; february]
           "2024-01-01" "2024-03-31"
           (answering "k"
              {| status_code := 200;
                 decoded := Some (PyList (map MonthCurAmtStatItem_json
                                            [january; february])) |})
           "k" 200); reflexivity.
Defined.

Lemma category_summary_returns_the_rows_witness :
  fst (get_expense_summary_by_category_by_currency no_coercion "2024-01-01" "2024-03-31"
         (answering "k"
            {| status_code := 200;
               decoded := Some (PyList (map CategoryCurAmtStatItem_json [groceries])) |}))
  = Return [groceries].
Proof.
  apply (category_summary_returns_the_rows no_coercion [groceries]
           "2024-01-01" "2024-03-31"
           (answering "k"
              {| status_code := 200;
                 decoded := Some (PyList (map CategoryCurAmtStatItem_json [groceries])) |})
           "k" 200); reflexivity.
Defined.

Lemma subscription_summary_returns_the_rows_witness :
  fst (get_expense_summary_by_subscription_by_currency no_coercion "2024-01-01"
         "2024-03-31"
         (answering "k"
            {| status_code := 200;
               decoded := Some (PyList (map SubscriptionCurAmtStatItem_json
                                          [streaming])) |}))
  = Return [streaming].
Proof.
  apply (subscription_summary_returns_the_rows no_coercion [streaming]
           "2024-01-01" "2024-03-31"
           (answering "k"
              {| status_code := 200;
                 decoded := Some (PyList (map SubscriptionCurAmtStatItem_json
                                            [streaming])) |})
           "k" 200); reflexivity.
Defined.

(** A row without [currency], after a complete one. *)
Lemma summary_row_fields_are_required_witness :
  has_error (LineError missing [LIdx 1; LKey "currency"])
    (validate_list (validate_MonthCurAmtStatItem no_coercion)
       (PyList ([MonthCurAmtStatItem_json january]
                ++ PyDict [("month", PyStr "2024-02"); ("total_amount", PyFloat 7)]
                   :: []))).
Proof.
  apply (summary_row_fields_are_required no_coercion [MonthCurAmtStatItem_json january]
           [] [("month", PyStr "2024-02"); ("total_amount", PyFloat 7)] "currency").
  - rewrite !elem_of_cons. right. left. reflexivity.
  - reflexivity.
Defined.

(** A body that is the JSON string ["{}"] gives the record without image and
    expense; the same object sent as an object does not. *)
Lemma get_expense_by_id_returns_iff_witness :
  fst (get_expense_by_id no_coercion empty_object_only "abc123"
         (answering "k" {| status_code := 200; decoded := Some (PyStr "{}") |}))
  = Return {| image := None; expense := None |}.
Proof.
  apply (get_expense_by_id_returns_iff no_coercion empty_object_only "abc123"
           (answering "k" {| status_code := 200; decoded := Some (PyStr "{}") |})
           "k" 200 (PyStr "{}") {| image := None; expense := None |});
    try reflexivity.
  exists "{}", (PyDict []). repeat split; reflexivity.
Defined.
